(** * martini: the gzip filter and the render helper

    A shallow embedding of [serveGzip] / [gzipResponseWriter.Write] (gzip.go)
    and of the [Render] methods, [prepareRenderOptions], [compile] and
    [getExt] (render.go), with the properties their specification states.

    Go values are modelled as follows: [string] for Go strings, [list byte]
    for [[]byte], [Z] for [int], [gmap string (list string)] for
    [http.Header], records for structs.  The standard-library collaborators
    (gzip stream, content sniffing, JSON encoder, template parser) are
    parameters of the development. *)

From Stdlib Require Import ZArith.
From Stdlib.Strings Require Import Ascii Byte.
From stdpp Require Import gmap strings list fin_maps.

Local Open Scope Z_scope.

(* ===================================================================== *)
(** ** Part I — definitions                                               *)
(* ===================================================================== *)

(** *** Go's [strings] package (the functions the sources call) *)

(** [strings.HasPrefix]. *)
Fixpoint HasPrefix (s p : string) {struct p} : bool :=
  match p, s with
  | EmptyString, _ => true
  | String _ _, EmptyString => false
  | String a p', String b s' => if decide (a = b) then HasPrefix s' p' else false
  end.

(** [strings.Index]: position of the first occurrence of [substr] in [s],
    [-1] when there is none. *)
Fixpoint Index (s substr : string) : Z :=
  if HasPrefix s substr then 0
  else match s with
       | EmptyString => -1
       | String _ s' => let i := Index s' substr in if i =? -1 then -1 else i + 1
       end.

(** [strings.Contains] is [Index(s, substr) >= 0]. *)
Definition Contains (s substr : string) : bool := 0 <=? Index s substr.

(** [strings.Split] for a non-empty separator.  [skip] counts the bytes of a
    separator just matched that are still to be dropped, [cur] is the piece
    being accumulated. *)
Fixpoint splitFrom (sep s : string) (skip : nat) (cur : string) : list string :=
  match s with
  | EmptyString => [cur]
  | String c s' =>
      match skip with
      | S k => splitFrom sep s' k cur
      | O => if HasPrefix s sep
             then cur :: splitFrom sep s' (String.length sep - 1) EmptyString
             else splitFrom sep s' O (cur +:+ String c EmptyString)
      end
  end.

Definition Split (s sep : string) : list string := splitFrom sep s O EmptyString.

(** [strings.Join]. *)
Fixpoint Join (elems : list string) (sep : string) : string :=
  match elems with
  | [] => EmptyString
  | [e] => e
  | e :: rest => e +:+ sep +:+ Join rest sep
  end.

(** Go's [[]byte(s)] conversion. *)
Definition bytes (s : string) : list byte := String.list_byte_of_string s.

(** *** net/http: headers *)

Definition isLower (c : ascii) : bool :=
  let n := N_of_ascii c in ((97 <=? n) && (n <=? 122))%N.
Definition isUpper (c : ascii) : bool :=
  let n := N_of_ascii c in ((65 <=? n) && (n <=? 90))%N.
Definition isDigit (c : ascii) : bool :=
  let n := N_of_ascii c in ((48 <=? n) && (n <=? 57))%N.
Definition toUpper (c : ascii) : ascii :=
  if isLower c then ascii_of_N (N_of_ascii c - 32) else c.
Definition toLower (c : ascii) : ascii :=
  if isUpper c then ascii_of_N (N_of_ascii c + 32) else c.

(** The bytes allowed in a header field name (RFC 7230 token). *)
Definition validHeaderFieldByte (c : ascii) : bool :=
  isLower c || isUpper c || isDigit c
  || bool_decide (c ∈ String.list_ascii_of_string "!#$%&'*+-.^_`|~").

Fixpoint allValid (s : string) : bool :=
  match s with
  | EmptyString => true
  | String c s' => validHeaderFieldByte c && allValid s'
  end.

Fixpoint canonicalize (upper : bool) (s : string) : string :=
  match s with
  | EmptyString => EmptyString
  | String c s' =>
      let c' := if upper then toUpper c else toLower c in
      String c' (canonicalize (bool_decide (c' = "-"%char)) s')
  end.

(** [textproto.CanonicalMIMEHeaderKey]: first letter and letters after a
    hyphen in upper case, the rest in lower case; a key with a byte that is
    not allowed in a field name is returned unchanged. *)
Definition CanonicalMIMEHeaderKey (s : string) : string :=
  if allValid s then canonicalize true s else s.

(** [http.Header] is [map[string][]string]. *)
Abbreviation Header := (gmap string (list string)).

(** [Header.Get]: the first value of the key, [""] when there is none. *)
Definition Header_Get (h : Header) (key : string) : string :=
  match h !! CanonicalMIMEHeaderKey key with
  | Some (v :: _) => v
  | _ => EmptyString
  end.

(** [Header.Set]: the key's values become the single value [value]. *)
Definition Header_Set (h : Header) (key value : string) : Header :=
  <[CanonicalMIMEHeaderKey key := [value]]> h.

(** [Header.Del]. *)
Definition Header_Del (h : Header) (key : string) : Header :=
  delete (CanonicalMIMEHeaderKey key) h.

Definition HeaderAcceptEncoding : string := "Accept-Encoding".
Definition HeaderContentEncoding : string := "Content-Encoding".
Definition HeaderContentLength : string := "Content-Length".
Definition HeaderContentType : string := "Content-Type".
Definition HeaderVary : string := "Vary".

Definition ContentType : string := "Content-Type".
Definition ContentLength : string := "Content-Length".
Definition ContentBinary : string := "application/octet-stream".
Definition ContentJSON : string := "application/json".
Definition ContentHTML : string := "text/html".
Definition ContentXHTML : string := "application/xhtml+xml".
Definition ContentXML : string := "text/xml".
Definition defaultCharset : string := "UTF-8".

(** *** The response writer *)

(** The calls made on the response writer and on the compression stream, in
    the order they are made. *)
Inductive Event : Type :=
| EvHeaderSet (key value : string)
| EvHeaderDel (key : string)
| EvWriteHeader (code : Z)
| EvWrite (p : list byte)
| EvGzipWrite (p : list byte)
| EvGzipClose.

(** Modelled from the spec: the framework's [ResponseWriter] (its source is
    not part of these files), as the capability set Header, Write and
    WriteHeader over what a recorder keeps: the header map, the status (a
    single-shot transition: the first [WriteHeader] wins, a [Write] before
    any [WriteHeader] implies 200), the body bytes, and the log of calls. *)
Record ResponseWriter : Type := mkResponseWriter {
  rwHeader : Header;
  rwStatus : option Z;
  rwBody : list byte;
  rwLog : list Event
}.

(** [w.Header().Set(key, value)]. *)
Definition rw_HeaderSet (key value : string) (w : ResponseWriter) : ResponseWriter :=
  mkResponseWriter (Header_Set (rwHeader w) key value) (rwStatus w) (rwBody w)
                   (rwLog w ++ [EvHeaderSet key value]).

(** [w.Header().Del(key)]. *)
Definition rw_HeaderDel (key : string) (w : ResponseWriter) : ResponseWriter :=
  mkResponseWriter (Header_Del (rwHeader w) key) (rwStatus w) (rwBody w)
                   (rwLog w ++ [EvHeaderDel key]).

(** [w.WriteHeader(code)]. *)
Definition rw_WriteHeader (code : Z) (w : ResponseWriter) : ResponseWriter :=
  mkResponseWriter (rwHeader w)
                   (match rwStatus w with Some s => Some s | None => Some code end)
                   (rwBody w) (rwLog w ++ [EvWriteHeader code]).

(** [w.Write(p)]. *)
Definition rw_Write (p : list byte) (w : ResponseWriter) : ResponseWriter :=
  mkResponseWriter (rwHeader w)
                   (match rwStatus w with Some s => Some s | None => Some 200 end)
                   (rwBody w ++ p) (rwLog w ++ [EvWrite p]).

Definition newline : string := String "010"%char EmptyString.

(** [http.Error(w, error, code)] of net/http: it sets the plain-text content
    type and the no-sniff option, writes the status, and prints the message
    with [fmt.Fprintln], that is, followed by a newline.  (Recent Go releases
    also delete Content-Length first; the releases this package was written
    for do not.) *)
Definition http_Error (w : ResponseWriter) (error : string) (code : Z) : ResponseWriter :=
  let w := rw_HeaderSet "Content-Type" "text/plain; charset=utf-8" w in
  let w := rw_HeaderSet "X-Content-Type-Options" "nosniff" w in
  let w := rw_WriteHeader code w in
  rw_Write (bytes (error +:+ newline)) w.

(** *** The compression filter (gzip.go) *)

Record Request : Type := mkRequest { reqHeader : Header }.

(** A [gzip.Writer] bound to the response writer: whether the gzip header has
    been emitted, the uncompressed bytes accepted so far, whether it is
    closed. *)
Record gzipWriter : Type := mkGzipWriter {
  gzWroteHeader : bool;
  gzInput : list byte;
  gzClosed : bool
}.

(** [gzip.NewWriter(w)]. *)
Definition gzip_NewWriter : gzipWriter := mkGzipWriter false [] false.

(** The per-request state: the response writer and, once the filter has
    created it, the compression stream. *)
Record World : Type := mkWorld {
  resp : ResponseWriter;
  gzs : option gzipWriter
}.

Definition onResp (f : ResponseWriter -> ResponseWriter) (st : World) : World :=
  mkWorld (f (resp st)) (gzs st).

(** What the injector resolves [http.ResponseWriter] to. *)
Inductive Writer : Type := DirectWriter | GzipResponseWriter.

Inductive Outcome : Type := Returned | Panicked.

(** Modelled from the spec: the downstream handlers of the host framework
    (not part of these sources), as the calls they make on the writer they
    are given; a handler may read a header and continue accordingly, return,
    or panic. *)
Inductive Handler : Type :=
| HReturn
| HPanic
| HSetHeader (key value : string) (next : Handler)
| HGetHeader (key : string) (cont : string -> Handler)
| HWriteHeader (code : Z) (next : Handler)
| HWrite (p : list byte) (next : Handler).

(** Modelled from the spec: the framework's request context, reduced to the
    writer currently mapped for downstream handlers and the handlers of the
    chain that have not run yet. *)
Record Context : Type := mkContext {
  ctxWriter : Writer;
  ctxRest : option Handler
}.

(** [c.MapTo]: the writer downstream handlers will be given from now on. *)
Definition MapTo (wr : Writer) (c : Context) : Context := mkContext wr (ctxRest c).

(** *** html/template and encoding/json: data *)

(** A parsed template body: literal text, the action that prints the dot,
    and a call of a function without arguments. *)
Inductive Node : Type :=
| NText (s : string)
| NDot
| NCall (f : string).

Inductive Result (A : Type) : Type :=
| Ok (a : A)
| Err (msg : string).
Arguments Ok {A} a.
Arguments Err {A} msg.

(** *** The standard-library collaborators

    What the sources call and this development does not look into. *)
Class Collaborators : Type := {
  (** [http.DetectContentType]. *)
  DetectContentType : list byte -> string;
  (** The gzip stream: its ten-byte header, the deflate stream of an input
      and the trailer (checksum and size) of an input. *)
  gzipHeader : list byte;
  deflate : list byte -> list byte;
  gzipTrailer : list byte -> list byte;
  (** The values handlers pass to [JSON] and [HTML] ([interface{}]), and the
      way the template engine prints one. *)
  V : Type;
  fmtV : V -> string;
  (** [json.Marshal] and [json.MarshalIndent] (value, prefix, indent). *)
  json_Marshal : V -> Result (list byte);
  json_MarshalIndent : V -> string -> string -> Result (list byte);
  (** The template parser ([Template.Parse]) for given left and right
      delimiters; [None] is a syntax error. *)
  parseTemplate : string -> string -> string -> option (list Node);
  (** [os.PathSeparator]. *)
  Separator : ascii
}.

Section Model.
Context {C : Collaborators}.

(** *** The compression filter, continued *)

(** [gzip.Writer.Write]: the header goes out on the first call; the bytes
    enter the compressor, whose output is modelled as held back until
    [Close].  A write to a closed stream fails and writes nothing. *)
Definition gzip_Write (p : list byte) (g : gzipWriter) (w : ResponseWriter)
  : gzipWriter * ResponseWriter :=
  let w := mkResponseWriter (rwHeader w) (rwStatus w) (rwBody w) (rwLog w ++ [EvGzipWrite p]) in
  if gzClosed g then (g, w)
  else
    let w := if gzWroteHeader g then w else rw_Write gzipHeader w in
    (mkGzipWriter true (gzInput g ++ p) false, w).

(** [gzip.Writer.Close]: emits the header if nothing was written, flushes the
    compressor and appends the trailer. *)
Definition gzip_Close (g : gzipWriter) (w : ResponseWriter) : gzipWriter * ResponseWriter :=
  let w := mkResponseWriter (rwHeader w) (rwStatus w) (rwBody w) (rwLog w ++ [EvGzipClose]) in
  if gzClosed g then (g, w)
  else
    let w := if gzWroteHeader g then w else rw_Write gzipHeader w in
    let w := rw_Write (deflate (gzInput g)) w in
    let w := rw_Write (gzipTrailer (gzInput g)) w in
    (mkGzipWriter true (gzInput g) true, w).

(** The calls [gzip.Writer.Close] makes on an open stream, and the bytes it
    sends to the underlying writer. *)
Definition closeEvents (g : gzipWriter) : list Event :=
  EvGzipClose
  :: (if gzWroteHeader g then [] else [EvWrite gzipHeader])
  ++ [EvWrite (deflate (gzInput g)); EvWrite (gzipTrailer (gzInput g))].

Definition closeBytes (g : gzipWriter) : list byte :=
  (if gzWroteHeader g then [] else gzipHeader)
  ++ deflate (gzInput g) ++ gzipTrailer (gzInput g).

(** [gzipResponseWriter.Write]. *)
Definition gzipResponseWriter_Write (p : list byte) (st : World) : World :=
  let w := resp st in
  let w := if Nat.eqb (String.length (Header_Get (rwHeader w) HeaderContentType)) 0
           then rw_HeaderSet HeaderContentType (DetectContentType p) w
           else w in
  match gzs st with
  | Some g => let '(g', w') := gzip_Write p g w in mkWorld w' (Some g')
  | None => mkWorld w None
  end.

(** Dispatch of [Write] on the mapped writer; [Header] and [WriteHeader] of
    the wrapper are those of the embedded writer. *)
Definition Writer_Write (wr : Writer) (p : list byte) (st : World) : World :=
  match wr with
  | DirectWriter => onResp (rw_Write p) st
  | GzipResponseWriter => gzipResponseWriter_Write p st
  end.

Fixpoint runHandler (wr : Writer) (h : Handler) (st : World) : World * Outcome :=
  match h with
  | HReturn => (st, Returned)
  | HPanic => (st, Panicked)
  | HSetHeader key value next => runHandler wr next (onResp (rw_HeaderSet key value) st)
  | HGetHeader key cont => runHandler wr (cont (Header_Get (rwHeader (resp st)) key)) st
  | HWriteHeader code next => runHandler wr next (onResp (rw_WriteHeader code) st)
  | HWrite p next => runHandler wr next (Writer_Write wr p st)
  end.

(** [c.Next()]: runs the rest of the chain with the writer mapped now. *)
Definition Next (c : Context) (st : World) : World * Context * Outcome :=
  match ctxRest c with
  | Some h => let '(st', o) := runHandler (ctxWriter c) h st in
              (st', mkContext (ctxWriter c) None, o)
  | None => (st, c, Returned)
  end.

(** The deferred [gz.Close()]. *)
Definition closeGzip (st : World) : World :=
  match gzs st with
  | Some g => let '(g', w') := gzip_Close g (resp st) in mkWorld w' (Some g')
  | None => st
  end.

(** What [serveGzip] does once [c.Next()] is over (gzip.go, lines 34-36 and
    the [defer] of line 27): on a normal return the [Content-Length]
    deletion, then the deferred close; on a panic the deferred close only,
    and the panic goes on. *)
Definition afterNext (r : World * Context * Outcome) : World * Context * Outcome :=
  let '(st, c, o) := r in
  match o with
  | Returned => (closeGzip (onResp (rw_HeaderDel "Content-Length") st), c, Returned)
  | Panicked => (closeGzip st, c, Panicked)
  end.

(** The state in which [serveGzip] calls [c.Next()] (gzip.go, lines 22-26):
    the two headers are set and the stream is created. *)
Definition beforeNext (st : World) : World :=
  let st := onResp (rw_HeaderSet HeaderContentEncoding "gzip") st in
  let st := onResp (rw_HeaderSet HeaderVary HeaderAcceptEncoding) st in
  mkWorld (resp st) (Some gzip_NewWriter).

(** [serveGzip(w, r, c)]; [w.(ResponseWriter)] holds of every writer the
    framework passes. *)
Definition serveGzip (st : World) (r : Request) (c : Context) : World * Context * Outcome :=
  if negb (Contains (Header_Get (reqHeader r) HeaderAcceptEncoding) "gzip")
  then (st, c, Returned)
  else afterNext (Next (MapTo GzipResponseWriter c) (beforeNext st)).

(** Modelled from the spec: the framework's dispatch loop around the filter.
    When the filter returns without having called [c.Next()], the loop goes
    on with the rest of the chain. *)
Definition runChain (st : World) (r : Request) (c : Context) : World * Outcome :=
  let '(st1, c1, o) := serveGzip st r c in
  match o with
  | Panicked => (st1, Panicked)
  | Returned => let '(st2, _, o2) := Next c1 st1 in (st2, o2)
  end.

(** Some event satisfying [b] occurs later in the log than one satisfying [a]. *)
Fixpoint occursAfter (a b : Event -> bool) (log : list Event) : bool :=
  match log with
  | [] => false
  | e :: l => (a e && existsb b l) || occursAfter a b l
  end.

Definition isGzipClose (e : Event) : bool :=
  match e with EvGzipClose => true | _ => false end.

Definition isDelContentLength (e : Event) : bool :=
  match e with
  | EvHeaderDel key => bool_decide (CanonicalMIMEHeaderKey key = "Content-Length")
  | _ => false
  end.

(** *** The render helper (render.go) *)

(** A value a template function returns: a plain [string], which the HTML
    escaper escapes, or [template.HTML], which it leaves as it is. *)
Inductive TValue : Type :=
| TString (s : string)
| THTML (s : string).

(** A template function without arguments: one that returns a fixed value
    or error, or the [yield] that [addYield] registers, which executes the
    template [name] on [binding]. *)
Inductive Func : Type :=
| FuncConst (value : TValue) (err : option string)
| FuncYield (name : string) (binding : V).

Abbreviation FuncMap := (gmap string Func).

(** A [*template.Template]: the named templates of the set and the function
    table they share. *)
Record Template : Type := mkTemplate {
  tmplDefs : gmap string (list Node);
  tmplFuncs : FuncMap
}.

Record Delims : Type := mkDelims {
  Left : string;
  Right : string
}.

Record RenderOptions : Type := mkRenderOptions {
  Directory : string;
  Layout : string;
  Extensions : list string;
  Funcs : list FuncMap;
  Delims_ : Delims;
  Charset : string;
  IndentJSON : bool;
  IndentXML : bool;
  PrefixJSON : list byte;
  PrefixXML : list byte;
  HTMLContentType : string
}.

Record HTMLRenderOptions : Type := mkHTMLRenderOptions {
  HTMLRenderOptions_Layout : string
}.

Record Render : Type := mkRender {
  Render_w : ResponseWriter;
  Render_t : Template;
  Render_opt : RenderOptions;
  Render_compiledCharset : string
}.

Definition quote : string := String (ascii_of_nat 34) EmptyString.

Definition helperFuncs : FuncMap :=
  {[ "yield" := FuncConst (TString "") (Some "yield called with no layout defined");
     "current" := FuncConst (TString "") None ]}.

Definition prepareCharset (charset : string) : string :=
  if negb (Nat.eqb (String.length charset) 0)
  then "; charset=" +:+ charset
  else "; charset=" +:+ defaultCharset.

(** The zero value of [RenderOptions]. *)
Definition zeroRenderOptions : RenderOptions :=
  mkRenderOptions "" "" [] [] (mkDelims "" "") "" false false [] [] "".

Definition prepareRenderOptions (options : list RenderOptions) : RenderOptions :=
  let opt := match options with o :: _ => o | [] => zeroRenderOptions end in
  let opt := if Nat.eqb (String.length (Directory opt)) 0
             then mkRenderOptions "templates" (Layout opt) (Extensions opt) (Funcs opt)
                    (Delims_ opt) (Charset opt) (IndentJSON opt) (IndentXML opt)
                    (PrefixJSON opt) (PrefixXML opt) (HTMLContentType opt)
             else opt in
  let opt := if Nat.eqb (length (Extensions opt)) 0
             then mkRenderOptions (Directory opt) (Layout opt) [".html"] (Funcs opt)
                    (Delims_ opt) (Charset opt) (IndentJSON opt) (IndentXML opt)
                    (PrefixJSON opt) (PrefixXML opt) (HTMLContentType opt)
             else opt in
  let opt := if Nat.eqb (String.length (HTMLContentType opt)) 0
             then mkRenderOptions (Directory opt) (Layout opt) (Extensions opt) (Funcs opt)
                    (Delims_ opt) (Charset opt) (IndentJSON opt) (IndentXML opt)
                    (PrefixJSON opt) (PrefixXML opt) ContentHTML
             else opt in
  opt.

(** The extension in the specification's words: everything after the first
    dot, empty when there is no dot. *)
Fixpoint afterFirstDot (s : string) : string :=
  match s with
  | EmptyString => EmptyString
  | String c rest => if decide (c = "."%char) then rest else afterFirstDot rest
  end.

(** The part of a path before its first dot, all of it when it has none. *)
Fixpoint beforeFirstDot (s : string) : string :=
  match s with
  | EmptyString => EmptyString
  | String c rest =>
      if decide (c = "."%char) then EmptyString else String c (beforeFirstDot rest)
  end.

Definition getExt (s : string) : string :=
  if Index s "." =? -1 then ""
  else "." +:+ Join (tail (Split s ".")) ".".

(** [filepath.ToSlash]. *)
Fixpoint ToSlash (path : string) : string :=
  match path with
  | EmptyString => EmptyString
  | String c rest => String (if decide (c = Separator) then "/"%char else c) (ToSlash rest)
  end.

(** An entry [filepath.Walk] visits: its path relative to the walked
    directory (["."] for the directory itself) and what [ioutil.ReadFile]
    returns for it ([None]: an error, as for a directory). *)
Record File : Type := mkFile {
  filePath : string;
  fileData : option string
}.

(** [tmpl.Funcs(funcs)]: the entries of [funcs] are added to the set's
    function table, replacing entries of the same name. *)
Definition Template_Funcs (funcs : FuncMap) (t : Template) : Template :=
  mkTemplate (tmplDefs t) (funcs ∪ tmplFuncs t).

(** The loop over [options.Extensions] in the walk function of [compile]:
    at the first entry equal to [ext] the file is read, named, given the
    function tables and parsed ([None]: a panic), and the loop is left. *)
Fixpoint compileMatch (options : RenderOptions) (r ext : string) (f : File)
         (extensions : list string) (t : Template) : option Template :=
  match extensions with
  | [] => Some t
  | extension :: rest =>
      if String.eqb ext extension then
        match fileData f with
        | None => None
        | Some buf =>
            let name := String.substring 0 (String.length r - String.length ext) r in
            let t := foldl (fun t funcs => Template_Funcs funcs t) t (Funcs options) in
            let t := Template_Funcs helperFuncs t in
            match parseTemplate (Left (Delims_ options)) (Right (Delims_ options)) buf with
            | None => None
            | Some body => Some (mkTemplate (<[ToSlash name := body]> (tmplDefs t)) (tmplFuncs t))
            end
        end
      else compileMatch options r ext f rest t
  end.

(** The walk function of [compile] on one visited entry. *)
Definition compileFile (options : RenderOptions) (f : File) (t : Template) : option Template :=
  let r := filePath f in
  let ext := getExt r in
  compileMatch options r ext f (Extensions options) t.

Fixpoint compileWalk (options : RenderOptions) (files : list File) (t : Template)
  : option Template :=
  match files with
  | [] => Some t
  | f :: rest =>
      match compileFile options f t with
      | None => None
      | Some t' => compileWalk options rest t'
      end
  end.

(** [compile], on the entries [filepath.Walk(dir, ...)] visits. *)
Definition compile (walked : list File) (options : RenderOptions) : option Template :=
  let dir := Directory options in
  match parseTemplate (Left (Delims_ options)) (Right (Delims_ options)) "Martini" with
  | None => None
  | Some body => compileWalk options walked (mkTemplate {[ dir := body ]} ∅)
  end.

(** *** html/template: execution

    The engine is modelled on the fragment the layouts use: literal text,
    the dot printed in a text context, and calls of functions without
    arguments; the dot is the value the execution was started with. *)

(** The replacement the HTML escaper makes for one byte of text. *)
Definition htmlEscapeByte (c : ascii) : string :=
  match N_of_ascii c with
  | 0%N => String (ascii_of_nat 239) (String (ascii_of_nat 191) (String (ascii_of_nat 189) ""))
  | 34%N => "&#34;"
  | 38%N => "&amp;"
  | 39%N => "&#39;"
  | 43%N => "&#43;"
  | 60%N => "&lt;"
  | 62%N => "&gt;"
  | _ => String c ""
  end.

Fixpoint htmlEscape (s : string) : string :=
  match s with
  | EmptyString => EmptyString
  | String c rest => htmlEscapeByte c +:+ htmlEscape rest
  end.

(** What an action writes for a value. *)
Definition renderValue (v : TValue) : string :=
  match v with
  | TString s => htmlEscape s
  | THTML s => s
  end.

(** A call of a template function; [exec] executes a template of the set by
    name ([None]: the execution does not end). *)
Definition callFunc (exec : string -> V -> option (string * option string)) (fn : Func)
  : option (TValue * option string) :=
  match fn with
  | FuncConst value err => Some (value, err)
  | FuncYield name binding =>
      match exec name binding with
      | None => None
      | Some (out, err) => Some (THTML out, err)
      end
  end.

(** The error of an action whose function call failed, without the line and
    column the engine adds to the template's name. *)
Definition callError (tname f msg : string) : string :=
  "template: " +:+ tname +:+ ": executing " +:+ quote +:+ tname +:+ quote +:+ " at <"
  +:+ f +:+ ">: error calling " +:+ f +:+ ": " +:+ msg.

(** Execution of a template body into the buffer [buf]; the result is the
    buffer and the error, if any, at which the execution stopped. *)
Fixpoint execNodes (exec : string -> V -> option (string * option string))
         (funcs : FuncMap) (tname : string) (nodes : list Node) (binding : V) (buf : string)
  : option (string * option string) :=
  match nodes with
  | [] => Some (buf, None)
  | NText s :: rest => execNodes exec funcs tname rest binding (buf +:+ s)
  | NDot :: rest => execNodes exec funcs tname rest binding (buf +:+ htmlEscape (fmtV binding))
  | NCall f :: rest =>
      match funcs !! f with
      | None => Some (buf, Some (callError tname f "function not defined"))
      | Some fn =>
          match callFunc exec fn with
          | None => None
          | Some (_, Some msg) => Some (buf, Some (callError tname f msg))
          | Some (v, None) => execNodes exec funcs tname rest binding (buf +:+ renderValue v)
          end
      end
  end.

(** The error of [ExecuteTemplate] for a name the set does not define. *)
Definition undefinedError (name : string) : string :=
  "html/template: " +:+ quote +:+ name +:+ quote +:+ " is undefined".

(** [t.ExecuteTemplate(buf, name, binding)] on a fresh buffer.  [fuel]
    bounds the depth of nested executions through [yield]. *)
Fixpoint ExecuteTemplate (fuel : nat) (t : Template) (name : string) (binding : V)
  : option (string * option string) :=
  match fuel with
  | O => None
  | S k =>
      match tmplDefs t !! name with
      | None => Some ("", Some (undefinedError name))
      | Some nodes => execNodes (ExecuteTemplate k t) (tmplFuncs t) name nodes binding ""
      end
  end.

Definition Render_execute (fuel : nat) (r : Render) (name : string) (binding : V)
  : option (string * option string) :=
  ExecuteTemplate fuel (Render_t r) name binding.

Definition Render_addYield (r : Render) (name : string) (binding : V) : Render :=
  let funcs : FuncMap :=
    {[ "yield" := FuncYield name binding;
       "current" := FuncConst (TString name) None ]} in
  mkRender (Render_w r) (Template_Funcs funcs (Render_t r)) (Render_opt r)
           (Render_compiledCharset r).

Definition Render_prepareHTMLRenderOptions (r : Render) (htmlOpt : list HTMLRenderOptions)
  : HTMLRenderOptions :=
  match htmlOpt with
  | o :: _ => o
  | [] => mkHTMLRenderOptions (Layout (Render_opt r))
  end.

(** What [renderBytes] returns for the buffer and error of [execute]: the
    error alone, or the buffer. *)
Definition execResult (x : option (string * option string)) : option (Result string) :=
  match x with
  | None => None
  | Some (_, Some err) => Some (Err err)
  | Some (out, None) => Some (Ok out)
  end.

(** [renderBytes]: the render value with the function table as left by
    [addYield], and the output or the error ([None]: no end within [fuel]). *)
Definition Render_renderBytes (fuel : nat) (r : Render) (name : string) (binding : V)
           (htmlOpt : list HTMLRenderOptions) : Render * option (Result string) :=
  let opt := Render_prepareHTMLRenderOptions r htmlOpt in
  let '(r, name') :=
    if Nat.ltb 0 (String.length (HTMLRenderOptions_Layout opt))
    then (Render_addYield r name binding, HTMLRenderOptions_Layout opt)
    else (r, name) in
  (r, execResult (Render_execute fuel r name' binding)).

Definition withWriter (r : Render) (w : ResponseWriter) : Render :=
  mkRender w (Render_t r) (Render_opt r) (Render_compiledCharset r).

(** [io.Copy(r, out)] of a buffer: one [Write] of its content, none when it
    is empty. *)
Definition io_Copy (w : ResponseWriter) (out : string) : ResponseWriter :=
  match out with
  | EmptyString => w
  | _ => rw_Write (bytes out) w
  end.

Definition Render_HTML (fuel : nat) (r : Render) (status : Z) (name : string) (binding : V)
           (htmlOpt : list HTMLRenderOptions) : option Render :=
  match Render_renderBytes fuel r name binding htmlOpt with
  | (_, None) => None
  | (r, Some (Err err)) => Some (withWriter r (http_Error (Render_w r) err 500))
  | (r, Some (Ok out)) =>
      let w := rw_HeaderSet ContentType
                 (HTMLContentType (Render_opt r) +:+ Render_compiledCharset r) (Render_w r) in
      let w := rw_WriteHeader status w in
      Some (withWriter r (io_Copy w out))
  end.

Definition Render_JSON (r : Render) (status : Z) (v : V) : Render :=
  let res := if IndentJSON (Render_opt r)
             then json_MarshalIndent v "" "  "
             else json_Marshal v in
  match res with
  | Err err => withWriter r (http_Error (Render_w r) err 500)
  | Ok result =>
      let w := rw_HeaderSet ContentType (ContentJSON +:+ Render_compiledCharset r) (Render_w r) in
      let w := rw_WriteHeader status w in
      let w := if Nat.ltb 0 (length (PrefixJSON (Render_opt r)))
               then rw_Write (PrefixJSON (Render_opt r)) w
               else w in
      withWriter r (rw_Write result w)
  end.

Definition Render_WriteData (r : Render) (status : Z) (v : list byte) : Render :=
  let w := Render_w r in
  let w := if String.eqb (Header_Get (rwHeader w) ContentType) ""
           then rw_HeaderSet ContentType ContentBinary w
           else w in
  let w := rw_WriteHeader status w in
  withWriter r (rw_Write v w).

(** [Error(status, message...)]. *)
Definition Render_Error (r : Render) (status : Z) (message : list string) : Render :=
  let w := rw_WriteHeader status (Render_w r) in
  match message with
  | m :: _ => withWriter r (rw_Write (bytes m) w)
  | [] => withWriter r w
  end.

Definition Render_Status (r : Render) (status : Z) : Render :=
  withWriter r (rw_WriteHeader status (Render_w r)).

(** *** Further functions of gzip.go and render.go *)

(** [GzipHandler()] returns [serveGzip]. *)
Definition GzipHandler : World -> Request -> Context -> World * Context * Outcome :=
  serveGzip.

(** The bytes a handler passes to [Write], in order, along its run from
    state [st] with the writer [wr]. *)
Fixpoint written (wr : Writer) (h : Handler) (st : World) : list byte :=
  match h with
  | HReturn => []
  | HPanic => []
  | HSetHeader key value next => written wr next (onResp (rw_HeaderSet key value) st)
  | HGetHeader key cont => written wr (cont (Header_Get (rwHeader (resp st)) key)) st
  | HWriteHeader code next => written wr next (onResp (rw_WriteHeader code) st)
  | HWrite p next => p ++ written wr next (Writer_Write wr p st)
  end.

(** [JSONString]: the serialization as a string, or the encoder's error. *)
Definition Render_JSONString (r : Render) (v : V) : Result string :=
  let res := if IndentJSON (Render_opt r)
             then json_MarshalIndent v "" "  "
             else json_Marshal v in
  match res with
  | Err err => Err err
  | Ok result => Ok (String.string_of_list_byte result)
  end.

(** [HTMLString]: the output of [renderBytes] as a string, or its error. *)
Definition Render_HTMLString (fuel : nat) (r : Render) (name : string) (binding : V)
           (htmlOpt : list HTMLRenderOptions) : Render * option (Result string) :=
  match Render_renderBytes fuel r name binding htmlOpt with
  | (r, Some (Err err)) => (r, Some (Err err))
  | (r, Some (Ok out)) => (r, Some (Ok out))
  | (r, None) => (r, None)
  end.

(** [Template()]. *)
Definition Render_Template (r : Render) : Template := Render_t r.

(** [xml.Marshal] and [xml.MarshalIndent] (value, prefix, indent). *)
Variable xml_Marshal : V -> Result (list byte).
Variable xml_MarshalIndent : V -> string -> string -> Result (list byte).

Definition Render_XML (r : Render) (status : Z) (v : V) : Render :=
  let res := if IndentXML (Render_opt r)
             then xml_MarshalIndent v "" "  "
             else xml_Marshal v in
  match res with
  | Err err => withWriter r (http_Error (Render_w r) err 500)
  | Ok result =>
      let w := rw_HeaderSet ContentType (ContentXML +:+ Render_compiledCharset r) (Render_w r) in
      let w := rw_WriteHeader status w in
      let w := if Nat.ltb 0 (length (PrefixXML (Render_opt r)))
               then rw_Write (PrefixXML (Render_opt r)) w
               else w in
      withWriter r (rw_Write result w)
  end.

(** Whether the walk function of [compile] finds the extension of an entry
    in the configured list, and whether such an entry can be read and
    parsed. *)
Definition eligible (options : RenderOptions) (f : File) : bool :=
  bool_decide (getExt (filePath f) ∈ Extensions options).


(** The name [compile] gives the template of an entry. *)
Definition templateName (f : File) : string :=
  let r := filePath f in
  ToSlash (String.substring 0 (String.length r - String.length (getExt r)) r).

(** A value of the process-wide [Data] map ([interface{}]): nil, a time, or
    anything else. *)
Inductive Any : Type :=
| AnyNil
| AnyTime (t : Z)
| AnyOther (s : string).

(** [Data[key]]: indexing a Go map gives nil for a missing key. *)
Definition Data_index (Data : gmap string Any) (key : string) : Any :=
  match Data !! key with
  | Some a => a
  | None => AnyNil
  end.

(** [Renderor(res, req, c, options...)]: what it leaves in [Data] and the
    render value it returns ([None]: [compile] panicked).  [now] is
    [time.Now()], [dev] is [Env == Dev], [walked] and [walkedAgain] are the
    entries the first and, in development, the second [compile] find;
    [t.Clone()] copies the set. *)
Definition Renderor (dev : bool) (now : Z) (walked walkedAgain : list File)
           (Data : gmap string Any) (res : ResponseWriter) (options : list RenderOptions)
  : gmap string Any * option Render :=
  let Data := match Data_index Data "RequestStartTime" with
              | AnyNil => <["RequestStartTime" := AnyTime now]> Data
              | _ => Data
              end in
  let opt := prepareRenderOptions options in
  let cs := prepareCharset (Charset opt) in
  match compile walked opt with
  | None => (Data, None)
  | Some t =>
      if dev then
        match compile walkedAgain opt with
        | None => (Data, None)
        | Some tc => (Data, Some (mkRender res tc opt cs))
        end
      else (Data, Some (mkRender res t opt cs))
  end.


(** The calls [JSON] makes on its writer, as a handler of the chain: the
    form in which a route handler that answers with [JSON] runs downstream
    of the compression filter. *)
Definition Render_JSON_calls (r : Render) (status : Z) (v : V) : Handler :=
  let res := if IndentJSON (Render_opt r)
             then json_MarshalIndent v "" "  "
             else json_Marshal v in
  match res with
  | Err err =>
      HSetHeader "Content-Type" "text/plain; charset=utf-8"
        (HSetHeader "X-Content-Type-Options" "nosniff"
           (HWriteHeader 500 (HWrite (bytes (err +:+ newline)) HReturn)))
  | Ok result =>
      HSetHeader ContentType (ContentJSON +:+ Render_compiledCharset r)
        (HWriteHeader status
           (if Nat.ltb 0 (length (PrefixJSON (Render_opt r)))
            then HWrite (PrefixJSON (Render_opt r)) (HWrite result HReturn)
            else HWrite result HReturn))
  end.

End Model.

(** *** Test doubles

    Concrete collaborators and inputs, in the manner of the package's tests,
    on which the definitions above can be run. *)

Inductive DemoValue : Type :=
| DString (s : string)
| DNil
| DChan.

Definition demoMarshal (v : DemoValue) : Result (list byte) :=
  match v with
  | DString s => Ok (bytes (quote +:+ s +:+ quote))
  | DNil => Ok (bytes "null")
  | DChan => Err "json: unsupported type: chan int"
  end.

Definition demo : Collaborators := {|
  DetectContentType := fun _ => "text/plain; charset=utf-8";
  gzipHeader := [x1f; x8b; x08; x00; x00; x00; x00; x00; x00; xff];
  deflate := fun p => p;
  gzipTrailer := fun _ => [x00; x00; x00; x00];
  V := DemoValue;
  fmtV := fun v => match v with DString s => s | DNil => "" | DChan => "chan" end;
  json_Marshal := demoMarshal;
  json_MarshalIndent := fun v _ _ => demoMarshal v;
  parseTemplate := fun _ _ text => Some [NText text];
  Separator := "/"%char
|}.

Definition emptyResponse : ResponseWriter := mkResponseWriter ∅ None [] [].

Definition emptyWorld : World := mkWorld emptyResponse None.

(** A request with [Accept-Encoding: gzip], and one without the header. *)
Definition gzipRequest : Request := mkRequest {[ "Accept-Encoding" := ["gzip"] ]}.
Definition plainRequest : Request := mkRequest ∅.

(** A downstream handler that announces five bytes and writes them, and one
    that panics after the announcement. *)
Definition helloHandler : Handler :=
  HSetHeader "Content-Length" "5" (HWrite (bytes "hello") HReturn).
Definition panicHandler : Handler :=
  HSetHeader "Content-Length" "5" HPanic.

Definition helloContext : Context := mkContext DirectWriter (Some helloHandler).
Definition panicContext : Context := mkContext DirectWriter (Some panicHandler).

(** The fixtures of the layout test: a content template and a layout. *)
Definition demoTemplate : @Template demo :=
  mkTemplate
    {[ "content" := [NText "<h1>"; NDot; NText ("</h1>" +:+ newline)];
       "layout" := [NText ("head" +:+ newline); NCall "yield"; NText (newline +:+ "foot" +:+ newline)];
       "current_layout" := [NCall "current"; NText (" head" +:+ newline); NCall "yield";
                            NText (newline +:+ "foot" +:+ newline)] ]}
    helperFuncs.

Definition demoRender : @Render demo :=
  mkRender emptyResponse demoTemplate (prepareRenderOptions []) (prepareCharset "").

Definition layoutRender : @Render demo :=
  mkRender emptyResponse demoTemplate
           (prepareRenderOptions
              [mkRenderOptions "" "layout" [] [] (mkDelims "" "") "" false false [] [] ""])
           (prepareCharset "").

(** Options with two extensions and a helper map that also tries to
    redefine [yield]. *)
Definition helperOptions : @RenderOptions demo :=
  mkRenderOptions "templates" "" [".tmpl"; ".html"]
    [ {[ "myCustomFunc" := FuncConst (TString "My custom function") None;
         "yield" := FuncConst (TString "mine") None ]} ]
    (mkDelims "" "") "" false false [] [] "text/html".

(** A walk with two files that give the same template name. *)
Definition indexHtml : File := mkFile "index.html" (Some "first").

(* ===================================================================== *)
(** ** Part II — properties                                               *)
(* ===================================================================== *)

Section Properties.
Context {C : Collaborators}.

(** *** Strings *)

Lemma HasPrefix_app (p b : string) : HasPrefix (p +:+ b) p = true.
Proof.
  induction p as [|a p IH]; simpl; [done|].
  destruct (decide (a = a)); [exact IH | congruence].
Qed.

Lemma HasPrefix_inv (s p : string) :
  HasPrefix s p = true -> exists b, s = p +:+ b.
Proof.
  revert s; induction p as [|a p IH]; intros s H.
  - exists s. reflexivity.
  - destruct s as [|c s]; simpl in H; [discriminate|].
    destruct (decide (a = c)) as [->|]; [|discriminate].
    destruct (IH _ H) as [b ->]. exists b. reflexivity.
Qed.

Lemma Index_lower (s substr : string) : -1 <= Index s substr.
Proof.
  induction s as [|c s IH]; simpl.
  - destruct (HasPrefix _ _); lia.
  - destruct (HasPrefix _ _); [lia|].
    destruct (Z.eqb_spec (Index s substr) (-1)); lia.
Qed.

Lemma Index_prefix (s substr : string) : HasPrefix s substr = true -> Index s substr = 0.
Proof. intros H. destruct s; cbn [Index]; rewrite H; reflexivity. Qed.

Lemma Index_found (a substr b : string) : 0 <= Index (a +:+ substr +:+ b) substr.
Proof.
  induction a as [|c a IH].
  - change (EmptyString +:+ substr +:+ b) with (substr +:+ b).
    rewrite Index_prefix; [lia | apply HasPrefix_app].
  - change (String c a +:+ substr +:+ b) with (String c (a +:+ substr +:+ b)).
    cbn [Index]. destruct (HasPrefix _ _); [lia|].
    destruct (Z.eqb_spec (Index (a +:+ substr +:+ b) substr) (-1)); lia.
Qed.

Lemma Index_inv (s substr : string) :
  0 <= Index s substr -> exists a b, s = a +:+ substr +:+ b.
Proof.
  induction s as [|c s IH]; cbn [Index]; intros H.
  - destruct (HasPrefix EmptyString substr) eqn:E; [|lia].
    apply HasPrefix_inv in E as [b ->]. exists EmptyString, b. reflexivity.
  - destruct (HasPrefix (String c s) substr) eqn:E.
    + apply HasPrefix_inv in E as [b ->]. exists EmptyString, b. reflexivity.
    + destruct (Z.eqb_spec (Index s substr) (-1)); [lia|].
      pose proof (Index_lower s substr).
      destruct IH as (a & b & ->); [lia|].
      exists (String c a), b. reflexivity.
Qed.

(** [strings.Contains] holds exactly of the strings that have [substr] as a
    substring. *)
Lemma Contains_spec (s substr : string) :
  Contains s substr = true <-> exists a b, s = a +:+ substr +:+ b.
Proof.
  unfold Contains. rewrite Z.leb_le. split.
  - apply Index_inv.
  - intros (a & b & ->). apply Index_found.
Qed.

(** *** The compression filter *)

Lemma canonical_ContentEncoding : CanonicalMIMEHeaderKey HeaderContentEncoding = "Content-Encoding".
Proof. reflexivity. Qed.

Lemma canonical_Vary : CanonicalMIMEHeaderKey HeaderVary = "Vary".
Proof. reflexivity. Qed.

Lemma canonical_ContentType : CanonicalMIMEHeaderKey "Content-Type" = "Content-Type".
Proof. reflexivity. Qed.

Lemma Header_Set_ContentType (h : Header) (value : string) :
  Header_Set h "Content-Type" value !! "Content-Type" = Some [value].
Proof. unfold Header_Set. rewrite canonical_ContentType. apply lookup_insert_eq. Qed.

Lemma canonical_ContentLength : CanonicalMIMEHeaderKey "Content-Length" = "Content-Length".
Proof. reflexivity. Qed.

(** The calls and the bytes of the deferred close of an open stream. *)
Lemma gzip_Close_open (g : gzipWriter) (w : ResponseWriter) :
  gzClosed g = false ->
  let '(g', w') := gzip_Close g w in
  gzClosed g' = true /\ gzInput g' = gzInput g /\
  rwHeader w' = rwHeader w /\
  rwLog w' = rwLog w ++ closeEvents g /\
  rwBody w' = rwBody w ++ closeBytes g.
Proof.
  intros Hopen. unfold gzip_Close, closeEvents, closeBytes. rewrite Hopen.
  destruct (gzWroteHeader g); cbn; rewrite <- ?app_assoc; cbn; auto.
Qed.

(** Downstream handlers cannot close the stream: they only reach it through
    the wrapper's [Write]. *)
Lemma gzipResponseWriter_Write_open (p : list byte) (st : World) (g : gzipWriter) :
  gzs st = Some g -> gzClosed g = false ->
  exists g', gzs (gzipResponseWriter_Write p st) = Some g' /\ gzClosed g' = false /\
             gzInput g' = gzInput g ++ p.
Proof.
  intros Hg Hopen. unfold gzipResponseWriter_Write, gzip_Write.
  rewrite Hg, Hopen. cbn. eauto.
Qed.

Lemma runHandler_open (h : Handler) (st : World) (g : gzipWriter) :
  gzs st = Some g -> gzClosed g = false ->
  exists g', gzs (fst (runHandler GzipResponseWriter h st)) = Some g' /\ gzClosed g' = false.
Proof.
  revert st g.
  induction h as [| |k v h IH|k cont IH|code h IH|p h IH]; intros st g Hg Hopen; cbn [runHandler].
  - eauto.
  - eauto.
  - apply (IH _ g); assumption.
  - apply (IH _ _ g); assumption.
  - apply (IH _ g); assumption.
  - destruct (gzipResponseWriter_Write_open p st g Hg Hopen) as (g' & Hg' & Hopen' & _).
    apply (IH _ g'); assumption.
Qed.

Lemma Next_open (c : Context) (st : World) (g : gzipWriter) :
  ctxWriter c = GzipResponseWriter ->
  gzs st = Some g -> gzClosed g = false ->
  exists g', gzs (fst (fst (Next c st))) = Some g' /\ gzClosed g' = false.
Proof.
  intros Hw Hg Hopen. unfold Next. destruct (ctxRest c) as [h|]; [|cbn; eauto].
  rewrite Hw. pose proof (runHandler_open h st g Hg Hopen) as H.
  destruct (runHandler GzipResponseWriter h st) as [st' o]. exact H.
Qed.

Lemma serveGzip_accept (st : World) (r : Request) (c : Context) :
  (exists a b, Header_Get (reqHeader r) HeaderAcceptEncoding = a +:+ "gzip" +:+ b) ->
  serveGzip st r c = afterNext (Next (MapTo GzipResponseWriter c) (beforeNext st)).
Proof.
  intros H. apply Contains_spec in H. unfold serveGzip. rewrite H. reflexivity.
Qed.

(** C1: when the request's Accept-Encoding value contains "gzip", the filter
    has set Content-Encoding: gzip and Vary: Accept-Encoding, and written
    nothing, when it runs the downstream chain; the chain runs with the
    wrapper as its writer; the wrapper's Write sets Content-Type to the
    sniffed type of the chunk whenever Content-Type is unset (and leaves the
    headers alone otherwise), and hands the chunk to the compression stream:
    the underlying writer receives at most the stream's own header, never the
    chunk. *)
Theorem serveGzip_wraps_writer (st : World) (r : Request) (c : Context) :
  (exists a b, Header_Get (reqHeader r) HeaderAcceptEncoding = a +:+ "gzip" +:+ b) ->
  let st1 := beforeNext st in
  (rwHeader (resp st1) !! "Content-Encoding" = Some ["gzip"] /\
   rwHeader (resp st1) !! "Vary" = Some ["Accept-Encoding"] /\
   rwLog (resp st1) = rwLog (resp st) ++ [EvHeaderSet "Content-Encoding" "gzip";
                                         EvHeaderSet "Vary" "Accept-Encoding"] /\
   rwBody (resp st1) = rwBody (resp st) /\
   rwStatus (resp st1) = rwStatus (resp st) /\
   gzs st1 = Some gzip_NewWriter) /\
  serveGzip st r c = afterNext (Next (mkContext GzipResponseWriter (ctxRest c)) st1) /\
  (forall h p s, runHandler GzipResponseWriter (HWrite p h) s
                 = runHandler GzipResponseWriter h (gzipResponseWriter_Write p s)) /\
  (forall p s, Header_Get (rwHeader (resp s)) "Content-Type" = "" ->
     rwHeader (resp (gzipResponseWriter_Write p s)) !! "Content-Type"
     = Some [DetectContentType p]) /\
  (forall p s, Header_Get (rwHeader (resp s)) "Content-Type" <> "" ->
     rwHeader (resp (gzipResponseWriter_Write p s)) = rwHeader (resp s)) /\
  (forall p s g, gzs s = Some g -> gzClosed g = false ->
     exists g', gzs (gzipResponseWriter_Write p s) = Some g' /\
                gzInput g' = gzInput g ++ p /\
                rwBody (resp (gzipResponseWriter_Write p s))
                = rwBody (resp s) ++ (if gzWroteHeader g then [] else gzipHeader)).
Proof.
  intros Hacc st1. repeat split.
  - subst st1. cbn [beforeNext onResp resp rw_HeaderSet rwHeader]. unfold Header_Set.
    rewrite canonical_Vary, canonical_ContentEncoding.
    rewrite lookup_insert_ne by discriminate. apply lookup_insert_eq.
  - subst st1. cbn [beforeNext onResp resp rw_HeaderSet rwHeader]. unfold Header_Set.
    rewrite canonical_Vary. apply lookup_insert_eq.
  - subst st1. cbn. rewrite <- app_assoc. reflexivity.
  - apply serveGzip_accept, Hacc.
  - intros p s Hunset. unfold gzipResponseWriter_Write.
    change HeaderContentType with "Content-Type". rewrite Hunset. cbn [String.length Nat.eqb].
    destruct (gzs s) as [g|]; cbn.
    + unfold gzip_Write. destruct (gzClosed g); cbn; [apply Header_Set_ContentType|].
      destruct (gzWroteHeader g); apply Header_Set_ContentType.
    + apply Header_Set_ContentType.
  - intros p s Hset. unfold gzipResponseWriter_Write.
    change HeaderContentType with "Content-Type".
    destruct (Header_Get (rwHeader (resp s)) "Content-Type") as [|a v] eqn:E; [congruence|].
    cbn [String.length Nat.eqb].
    destruct (gzs s) as [g|]; cbn; [|reflexivity].
    unfold gzip_Write. destruct (gzClosed g); cbn; [reflexivity|].
    destruct (gzWroteHeader g); reflexivity.
  - intros p s g Hg Hopen. unfold gzipResponseWriter_Write, gzip_Write.
    rewrite Hg, Hopen.
    destruct (Nat.eqb _ 0), (gzWroteHeader g); cbn; eexists; repeat split;
      rewrite ?app_nil_r; reflexivity.
Qed.

(** C2: when the request's Accept-Encoding value does not contain "gzip"
    (the check is case-sensitive), the filter returns at once: the response
    (headers, status, body, calls) and the context are what they were, so the
    writer is not wrapped; the chain then runs exactly as without the filter,
    and a chunk written through the unwrapped writer reaches the body as it
    is, with no header touched. *)
Theorem serveGzip_passes_through (st : World) (r : Request) (c : Context) :
  ~ (exists a b, Header_Get (reqHeader r) HeaderAcceptEncoding = a +:+ "gzip" +:+ b) ->
  serveGzip st r c = (st, c, Returned) /\
  runChain st r c = (let '(st', _, o) := Next c st in (st', o)) /\
  (forall p s, rwBody (resp (Writer_Write DirectWriter p s)) = rwBody (resp s) ++ p /\
               rwHeader (resp (Writer_Write DirectWriter p s)) = rwHeader (resp s) /\
               gzs (Writer_Write DirectWriter p s) = gzs s) /\
  Contains "GZIP" "gzip" = false.
Proof.
  intros Hno.
  assert (Hc : Contains (Header_Get (reqHeader r) HeaderAcceptEncoding) "gzip" = false).
  { destruct (Contains _ _) eqn:E; [|reflexivity].
    exfalso. apply Hno, Contains_spec, E. }
  assert (Hs : serveGzip st r c = (st, c, Returned)).
  { unfold serveGzip. rewrite Hc. reflexivity. }
  split; [exact Hs|]. split.
  - unfold runChain. rewrite Hs. reflexivity.
  - split; [|reflexivity]. intros p s. cbn. auto.
Qed.

(** C3 (as the code has it): for a request that is compressed, the filter
    closes the compression stream when it exits, also when the downstream
    chain panics (the close is deferred): the stream's pending output and
    trailer reach the underlying writer.  When the chain returns normally,
    Content-Length is deleted after the chain and before that close, and is
    absent from the final headers; when the chain panics, the filter deletes
    no header. *)
Theorem serveGzip_finalizes (st : World) (r : Request) (c : Context) :
  (exists a b, Header_Get (reqHeader r) HeaderAcceptEncoding = a +:+ "gzip" +:+ b) ->
  let '(st2, c2, o) := Next (MapTo GzipResponseWriter c) (beforeNext st) in
  exists g2 st3 g3,
    gzs st2 = Some g2 /\ gzClosed g2 = false /\
    serveGzip st r c = (st3, c2, o) /\
    gzs st3 = Some g3 /\ gzClosed g3 = true /\ gzInput g3 = gzInput g2 /\
    rwBody (resp st3) = rwBody (resp st2) ++ closeBytes g2 /\
    match o with
    | Returned =>
        rwLog (resp st3)
        = rwLog (resp st2) ++ [EvHeaderDel "Content-Length"] ++ closeEvents g2 /\
        rwHeader (resp st3) = delete "Content-Length" (rwHeader (resp st2))
    | Panicked =>
        rwLog (resp st3) = rwLog (resp st2) ++ closeEvents g2 /\
        rwHeader (resp st3) = rwHeader (resp st2)
    end.
Proof.
  intros Hacc. rewrite (serveGzip_accept _ _ _ Hacc).
  pose proof (Next_open (MapTo GzipResponseWriter c) (beforeNext st) gzip_NewWriter
                eq_refl eq_refl eq_refl) as (g2 & Hg2 & Hopen).
  destruct (Next (MapTo GzipResponseWriter c) (beforeNext st)) as [[st2 c2] o].
  cbn [fst] in Hg2. unfold afterNext, closeGzip.
  destruct o.
  - cbn [onResp gzs resp]. rewrite Hg2.
    pose proof (gzip_Close_open g2 (rw_HeaderDel "Content-Length" (resp st2)) Hopen) as H.
    destruct (gzip_Close g2 _) as [g3 w3]. destruct H as (Hc & Hi & Hh & Hl & Hb).
    exists g2, (mkWorld w3 (Some g3)), g3. cbn [gzs resp].
    repeat split; try assumption.
    rewrite Hl. cbn. rewrite <- app_assoc. reflexivity.
  - rewrite Hg2.
    pose proof (gzip_Close_open g2 (resp st2) Hopen) as H.
    destruct (gzip_Close g2 _) as [g3 w3]. destruct H as (Hc & Hi & Hh & Hl & Hb).
    exists g2, (mkWorld w3 (Some g3)), g3. cbn [gzs resp].
    repeat split; assumption.
Qed.

(** *** The render helper: options *)

(** C10: each of the three options left empty gets its default (directory
    "templates", extensions [".html"], HTML content type "text/html"); an
    option that is given, and every other field, is kept as given.  The
    options looked at are the first of the variadic argument, or the zero
    value when there is none. *)
Theorem prepareRenderOptions_defaults (options : list RenderOptions) :
  let given := match options with o :: _ => o | [] => zeroRenderOptions end in
  let opt := prepareRenderOptions options in
  Directory opt = (if decide (Directory given = "") then "templates" else Directory given) /\
  Extensions opt = (if decide (Extensions given = []) then [".html"] else Extensions given) /\
  HTMLContentType opt
  = (if decide (HTMLContentType given = "") then "text/html" else HTMLContentType given) /\
  Layout opt = Layout given /\
  Funcs opt = Funcs given /\
  Delims_ opt = Delims_ given /\
  Charset opt = Charset given /\
  IndentJSON opt = IndentJSON given /\
  IndentXML opt = IndentXML given /\
  PrefixJSON opt = PrefixJSON given /\
  PrefixXML opt = PrefixXML given.
Proof.
  intros given opt. subst opt. unfold prepareRenderOptions. fold given.
  destruct given as [dir lay exts fns dl cs ij ix pj px hct]. cbn [Directory].
  destruct dir as [|a dir], exts as [|e exts], hct as [|b hct]; cbn; repeat split.
Qed.

(** *** The render helper: status, error and raw data *)

(** C8: [Status(s)] and [Error(s)] without a message are the same function:
    one [WriteHeader(s)] and nothing else; [Error(s, message)] makes the
    same call and then writes the bytes of the message. *)
Theorem Render_Status_is_Error (r : Render) (s : Z) :
  Render_Status r s = Render_Error r s [] /\
  Render_w (Render_Status r s) = rw_WriteHeader s (Render_w r) /\
  rwLog (Render_w (Render_Status r s)) = rwLog (Render_w r) ++ [EvWriteHeader s] /\
  rwBody (Render_w (Render_Status r s)) = rwBody (Render_w r) /\
  rwHeader (Render_w (Render_Status r s)) = rwHeader (Render_w r) /\
  (forall message rest,
     Render_w (Render_Error r s (message :: rest))
     = rw_Write (bytes message) (Render_w (Render_Status r s)) /\
     rwLog (Render_w (Render_Error r s (message :: rest)))
     = rwLog (Render_w r) ++ [EvWriteHeader s; EvWrite (bytes message)] /\
     rwBody (Render_w (Render_Error r s (message :: rest)))
     = rwBody (Render_w r) ++ bytes message).
Proof.
  repeat split; cbn. rewrite <- app_assoc. reflexivity.
Qed.

Lemma Header_Get_Set_ContentType (h : Header) (value : string) :
  Header_Get (Header_Set h ContentType value) ContentType = value.
Proof.
  unfold Header_Get. change ContentType with "Content-Type".
  rewrite canonical_ContentType, Header_Set_ContentType. reflexivity.
Qed.

(** C7: [WriteData] sets Content-Type to "application/octet-stream" when
    the response has none ([Get] returns the empty string), leaves the
    headers as they are when it has one, then makes one [WriteHeader(status)]
    and one [Write] of the bytes as given. *)
Theorem Render_WriteData_content_type (r : Render) (status : Z) (v : list byte) :
  let w := Render_w r in
  let w' := Render_w (Render_WriteData r status v) in
  (Header_Get (rwHeader w) "Content-Type" = "" ->
     rwHeader w' = Header_Set (rwHeader w) "Content-Type" "application/octet-stream" /\
     Header_Get (rwHeader w') "Content-Type" = "application/octet-stream" /\
     rwLog w' = rwLog w ++ [EvHeaderSet "Content-Type" "application/octet-stream";
                            EvWriteHeader status; EvWrite v]) /\
  (Header_Get (rwHeader w) "Content-Type" <> "" ->
     rwHeader w' = rwHeader w /\
     rwLog w' = rwLog w ++ [EvWriteHeader status; EvWrite v]) /\
  (rwHeader w !! "Content-Type" = None -> Header_Get (rwHeader w) "Content-Type" = "") /\
  rwBody w' = rwBody w ++ v /\
  (rwStatus w = None -> rwStatus w' = Some status).
Proof.
  intros w w'. subst w w'. unfold Render_WriteData. change ContentType with "Content-Type".
  repeat split.
  - rewrite H. reflexivity.
  - rewrite H. cbn. apply (Header_Get_Set_ContentType _ "application/octet-stream").
  - rewrite H. cbn. rewrite <- !app_assoc. reflexivity.
  - destruct (String.eqb_spec (Header_Get (rwHeader (Render_w r)) "Content-Type") "");
      [contradiction|reflexivity].
  - destruct (String.eqb_spec (Header_Get (rwHeader (Render_w r)) "Content-Type") "");
      [contradiction|]. cbn. rewrite <- app_assoc. reflexivity.
  - intros H. unfold Header_Get. rewrite canonical_ContentType, H. reflexivity.
  - destruct (String.eqb _ _); reflexivity.
  - intros H. destruct (String.eqb _ _); cbn; rewrite H; reflexivity.
Qed.

(** *** The render helper: JSON *)

(** C4 (as the code has it): [JSON] serializes with [MarshalIndent(v, "",
    "  ")] when IndentJSON is set and with [Marshal] otherwise.  On an error
    it answers through [http.Error]: Content-Type "text/plain;
    charset=utf-8", the status 500 and no other, and as body the error text
    followed by a newline; neither the JSON content type nor a
    [WriteHeader] of the given status (unless that is 500) is among the
    calls.  On success it sets Content-Type to "application/json" and the
    charset suffix, writes the status, then the prefix when it is not empty,
    then the payload. *)
Theorem Render_JSON_response (r : Render) (status : Z) (v : V) :
  let cs := Render_compiledCharset r in
  let w := Render_w r in
  let w' := Render_w (Render_JSON r status v) in
  match (if IndentJSON (Render_opt r) then json_MarshalIndent v "" "  " else json_Marshal v) with
  | Err err =>
      w' = http_Error w err 500 /\
      rwLog w' = rwLog w ++ [EvHeaderSet "Content-Type" "text/plain; charset=utf-8";
                             EvHeaderSet "X-Content-Type-Options" "nosniff";
                             EvWriteHeader 500;
                             EvWrite (bytes (err +:+ newline))] /\
      rwBody w' = rwBody w ++ bytes (err +:+ newline) /\
      rwHeader w' !! "Content-Type" = Some ["text/plain; charset=utf-8"] /\
      (rwStatus w = None -> rwStatus w' = Some 500) /\
      (forall e, e ∈ drop (length (rwLog w)) (rwLog w') ->
         e <> EvHeaderSet ContentType (ContentJSON +:+ cs) /\
         (status <> 500 -> e <> EvWriteHeader status))
  | Ok result =>
      rwLog w' = rwLog w ++ [EvHeaderSet "Content-Type" ("application/json" +:+ cs);
                             EvWriteHeader status]
                         ++ (if decide (PrefixJSON (Render_opt r) = []) then []
                             else [EvWrite (PrefixJSON (Render_opt r))])
                         ++ [EvWrite result] /\
      rwBody w' = rwBody w ++ PrefixJSON (Render_opt r) ++ result /\
      rwHeader w' !! "Content-Type" = Some ["application/json" +:+ cs] /\
      (rwStatus w = None -> rwStatus w' = Some status)
  end.
Proof.
  intros cs w w'. subst cs w w'. unfold Render_JSON.
  destruct (if IndentJSON (Render_opt r) then _ else _) as [result|err].
  - change ContentType with "Content-Type". change ContentJSON with "application/json".
    destruct (PrefixJSON (Render_opt r)) as [|b pre]; cbn [length Nat.ltb Nat.leb];
      cbn -[String.append]; rewrite <- ?app_assoc; repeat split;
      try apply Header_Set_ContentType.
    + intros H; rewrite H; reflexivity.
    + intros H; rewrite H; reflexivity.
  - cbn -[String.append bytes]. repeat split.
    + rewrite <- !app_assoc. reflexivity.
    + unfold Header_Set. rewrite lookup_insert_ne by (vm_compute; discriminate).
      rewrite canonical_ContentType. apply lookup_insert_eq.
    + intros H; rewrite H; reflexivity.
    + rewrite <- !app_assoc in H. rewrite drop_app_length in H.
      cbn in H. intros ->. 
      repeat (apply elem_of_cons in H as [H|H]; [discriminate H|]).
      inversion H.
    + intros Hs ->. rewrite <- !app_assoc in H. rewrite drop_app_length in H.
      repeat (apply elem_of_cons in H as [H|H]; [congruence|]).
      inversion H.
Qed.

(** *** The render helper: HTML *)

(** More fuel does not change the result of an execution that ends. *)
Lemma execNodes_mono (exec1 exec2 : string -> V -> option (string * option string))
      (funcs : gmap string Func) (tname : string) (nodes : list Node) (binding : V)
      (buf : string)
      (x : string * option string) :
  (forall name b y, exec1 name b = Some y -> exec2 name b = Some y) ->
  execNodes exec1 funcs tname nodes binding buf = Some x ->
  execNodes exec2 funcs tname nodes binding buf = Some x.
Proof.
  intros Hexec. revert buf.
  induction nodes as [|n nodes IH]; intros buf H; cbn [execNodes] in *; [exact H|].
  destruct n as [s| |f]; try (apply IH; exact H).
  destruct (funcs !! f) as [fn|]; [|exact H].
  destruct fn as [value err|name b]; cbn [callFunc] in *.
  - destruct err; [exact H | apply IH; exact H].
  - destruct (exec1 name b) as [[out err]|] eqn:E; [|discriminate].
    rewrite (Hexec _ _ _ E). destruct err; [exact H | apply IH; exact H].
Qed.

Lemma ExecuteTemplate_S (fuel : nat) (t : Template) (name : string) (binding : V)
      (x : string * option string) :
  ExecuteTemplate fuel t name binding = Some x ->
  ExecuteTemplate (S fuel) t name binding = Some x.
Proof.
  revert name binding x.
  induction fuel as [|k IH]; intros name binding x H; [discriminate|].
  cbn [ExecuteTemplate] in *.
  destruct (tmplDefs t !! name) as [nodes|]; [|exact H].
  eapply execNodes_mono; [|exact H]. intros name' b y Hy. apply IH, Hy.
Qed.

Lemma ExecuteTemplate_more_fuel (fuel extra : nat) (t : Template) (name : string)
      (binding : V) (x : string * option string) :
  ExecuteTemplate fuel t name binding = Some x ->
  ExecuteTemplate (extra + fuel) t name binding = Some x.
Proof.
  intros H. induction extra as [|e IH]; [exact H|]. apply ExecuteTemplate_S, IH.
Qed.

Lemma addYield_funcs (r : Render) (name : string) (binding : V) :
  let t' := Render_t (Render_addYield r name binding) in
  tmplFuncs t' !! "yield" = Some (FuncYield name binding) /\
  tmplFuncs t' !! "current" = Some (FuncConst (TString name) None) /\
  (forall f, f <> "yield" -> f <> "current" ->
             tmplFuncs t' !! f = tmplFuncs (Render_t r) !! f) /\
  tmplDefs t' = tmplDefs (Render_t r).
Proof.
  cbn. repeat split.
  - apply lookup_union_Some_l. reflexivity.
  - apply lookup_union_Some_l. reflexivity.
  - intros f Hy Hc. apply lookup_union_r.
    rewrite lookup_insert_ne by congruence. apply lookup_singleton_ne. congruence.
Qed.

(** C5: the layout of an [HTML] call is the one of the first call-site
    option when there is one, the configured one otherwise; the empty
    string is no layout.  With a layout, [renderBytes] registers [yield] and
    [current] in the function table and executes the layout as the
    top-level template: an action calling [yield] then inserts, unescaped,
    the output of the named template executed on the value, and an action
    calling [current] inserts the template's name.  Without a layout the
    named template is executed with the function table untouched. *)
Theorem Render_renderBytes_layout
        (fuel : nat) (r : Render) (name : string) (binding : V)
        (htmlOpt : list HTMLRenderOptions) :
  let layout := HTMLRenderOptions_Layout (Render_prepareHTMLRenderOptions r htmlOpt) in
  let r' := Render_addYield r name binding in
  let t' := Render_t r' in
  layout = match htmlOpt with
           | o :: _ => HTMLRenderOptions_Layout o
           | [] => Layout (Render_opt r)
           end /\
  (layout <> "" ->
     Render_renderBytes fuel r name binding htmlOpt
     = (r', execResult (ExecuteTemplate fuel t' layout binding))) /\
  (layout = "" ->
     Render_renderBytes fuel r name binding htmlOpt
     = (r, execResult (ExecuteTemplate fuel (Render_t r) name binding))) /\
  tmplFuncs t' !! "yield" = Some (FuncYield name binding) /\
  tmplFuncs t' !! "current" = Some (FuncConst (TString name) None) /\
  tmplDefs t' = tmplDefs (Render_t r) /\
  (forall k tname rest b buf,
     execNodes (ExecuteTemplate k t') (tmplFuncs t') tname (NCall "yield" :: rest) b buf
     = match ExecuteTemplate k t' name binding with
       | None => None
       | Some (_, Some msg) => Some (buf, Some (callError tname "yield" msg))
       | Some (out, None) =>
           execNodes (ExecuteTemplate k t') (tmplFuncs t') tname rest b (buf +:+ out)
       end) /\
  (forall k tname rest b buf,
     execNodes (ExecuteTemplate k t') (tmplFuncs t') tname (NCall "current" :: rest) b buf
     = execNodes (ExecuteTemplate k t') (tmplFuncs t') tname rest b
                 (buf +:+ htmlEscape name)).
Proof.
  intros layout r' t'.
  destruct (addYield_funcs r name binding) as (Hy & Hc & _ & Hd).
  fold r' in Hy, Hc, Hd. fold t' in Hy, Hc, Hd.
  split; [subst layout; destruct htmlOpt; reflexivity|].
  split; [|split].
  - intros Hl. unfold Render_renderBytes. fold layout.
    destruct layout as [|a l]; [congruence|]. reflexivity.
  - intros Hl. unfold Render_renderBytes. fold layout. rewrite Hl. reflexivity.
  - repeat split; try assumption.
    + intros k tname rest b buf. cbn [execNodes]. rewrite Hy. cbn [callFunc].
      destruct (ExecuteTemplate k t' name binding) as [[out [msg|]]|]; reflexivity.
    + intros k tname rest b buf. cbn [execNodes]. rewrite Hc. reflexivity.
Qed.

Lemma Render_renderBytes_undefined
      (fuel : nat) (r : Render) (name : string) (binding : V)
      (htmlOpt : list HTMLRenderOptions) :
  HTMLRenderOptions_Layout (Render_prepareHTMLRenderOptions r htmlOpt) = "" ->
  tmplDefs (Render_t r) !! name = None ->
  Render_renderBytes (S fuel) r name binding htmlOpt = (r, Some (Err (undefinedError name))).
Proof.
  intros Hl Hn. unfold Render_renderBytes. rewrite Hl. cbn. unfold Render_execute. cbn.
  rewrite Hn. reflexivity.
Qed.

Lemma Render_renderBytes_writer
      (fuel : nat) (r : Render) (name : string) (binding : V)
      (htmlOpt : list HTMLRenderOptions) :
  Render_w (fst (Render_renderBytes fuel r name binding htmlOpt)) = Render_w r /\
  Render_opt (fst (Render_renderBytes fuel r name binding htmlOpt)) = Render_opt r /\
  Render_compiledCharset (fst (Render_renderBytes fuel r name binding htmlOpt))
  = Render_compiledCharset r.
Proof.
  unfold Render_renderBytes.
  destruct (Nat.ltb 0 _); cbn; auto.
Qed.

(** C6 (as the code has it): when the execution of the template fails,
    [HTML] answers through [http.Error]: Content-Type "text/plain;
    charset=utf-8", the status 500 and no other, and as body the engine's
    error text followed by a newline; the calls that set the HTML content
    type and write the given status are not made. *)
Theorem Render_HTML_failure
        (fuel : nat) (r : Render) (status : Z) (name : string) (binding : V)
        (htmlOpt : list HTMLRenderOptions) (r1 : Render) (err : string) :
  Render_renderBytes fuel r name binding htmlOpt = (r1, Some (Err err)) ->
  exists r2,
    Render_HTML fuel r status name binding htmlOpt = Some r2 /\
    Render_w r2 = http_Error (Render_w r) err 500 /\
    rwLog (Render_w r2)
    = rwLog (Render_w r) ++ [EvHeaderSet "Content-Type" "text/plain; charset=utf-8";
                             EvHeaderSet "X-Content-Type-Options" "nosniff";
                             EvWriteHeader 500;
                             EvWrite (bytes (err +:+ newline))] /\
    rwBody (Render_w r2) = rwBody (Render_w r) ++ bytes (err +:+ newline) /\
    rwHeader (Render_w r2) !! "Content-Type" = Some ["text/plain; charset=utf-8"] /\
    (rwStatus (Render_w r) = None -> rwStatus (Render_w r2) = Some 500).
Proof.
  intros H.
  pose proof (Render_renderBytes_writer fuel r name binding htmlOpt) as (Hw & _).
  unfold Render_HTML. rewrite H in *. cbn [fst] in Hw.
  eexists. split; [reflexivity|]. cbn [Render_w withWriter]. rewrite Hw.
  cbn -[String.append bytes]. repeat split.
  - rewrite <- !app_assoc. reflexivity.
  - unfold Header_Set. rewrite lookup_insert_ne by (vm_compute; discriminate).
    rewrite canonical_ContentType. apply lookup_insert_eq.
  - intros Hs; rewrite Hs; reflexivity.
Qed.

(** On success [HTML] sets the configured content type with the charset
    suffix, writes the status and copies the output. *)
Lemma Render_HTML_success
      (fuel : nat) (r : Render) (status : Z) (name : string) (binding : V)
      (htmlOpt : list HTMLRenderOptions) (r1 : Render) (out : string) :
  Render_renderBytes fuel r name binding htmlOpt = (r1, Some (Ok out)) ->
  exists r2,
    Render_HTML fuel r status name binding htmlOpt = Some r2 /\
    rwBody (Render_w r2) = rwBody (Render_w r) ++ bytes out /\
    rwHeader (Render_w r2) !! "Content-Type"
    = Some [HTMLContentType (Render_opt r) +:+ Render_compiledCharset r] /\
    (rwStatus (Render_w r) = None -> rwStatus (Render_w r2) = Some status).
Proof.
  intros H.
  pose proof (Render_renderBytes_writer fuel r name binding htmlOpt) as (Hw & Ho & Hc).
  unfold Render_HTML. rewrite H in *. cbn [fst] in Hw, Ho, Hc.
  eexists. split; [reflexivity|]. cbn [Render_w withWriter]. rewrite Hw, Ho, Hc.
  change ContentType with "Content-Type".
  destruct out as [|a out]; cbn -[String.append bytes]; repeat split;
    try apply Header_Set_ContentType.
  - cbn. rewrite app_nil_r. reflexivity.
  - intros Hs; rewrite Hs; reflexivity.
  - intros Hs; rewrite Hs; reflexivity.
Qed.

(** *** Template discovery *)

Lemma str_app_cons (c : ascii) (a b : string) : String c a +:+ b = String c (a +:+ b).
Proof. reflexivity. Qed.

Lemma str_app_nil_r (s : string) : s +:+ "" = s.
Proof.
  induction s as [|c s IH]; [reflexivity|]. rewrite str_app_cons, IH. reflexivity.
Qed.

Lemma str_app_assoc (a b c : string) : (a +:+ b) +:+ c = a +:+ b +:+ c.
Proof.
  induction a as [|x a IH]; [reflexivity|]. rewrite !str_app_cons, IH. reflexivity.
Qed.

Lemma str_length_app (a b : string) :
  String.length (a +:+ b) = (String.length a + String.length b)%nat.
Proof.
  induction a as [|x a IH]; [reflexivity|]. rewrite str_app_cons. cbn [String.length].
  rewrite IH. reflexivity.
Qed.

Lemma substring_0_app (a b : string) : String.substring 0 (String.length a) (a +:+ b) = a.
Proof.
  induction a as [|x a IH].
  - destruct b; reflexivity.
  - rewrite str_app_cons. cbn [String.length String.substring]. rewrite IH. reflexivity.
Qed.

Lemma Contains_dot_cons (c : ascii) (s : string) :
  Contains (String c s) "." = if decide (c = "."%char) then true else Contains s ".".
Proof.
  unfold Contains. cbn [Index HasPrefix].
  destruct (decide ("."%char = c)) as [<-|Hne].
  - destruct (decide ("."%char = "."%char)); [reflexivity | congruence].
  - destruct (decide (c = "."%char)); [congruence|].
    pose proof (Index_lower s ".").
    destruct (Z.eqb_spec (Index s ".") (-1)) as [->|]; [reflexivity|].
    destruct (Z.leb_spec 0 (Index s ".")), (Z.leb_spec 0 (Index s "." + 1)); try reflexivity; lia.
Qed.

Lemma Contains_beforeFirstDot (s : string) : Contains (beforeFirstDot s) "." = false.
Proof.
  induction s as [|c s IH]; cbn [beforeFirstDot]; [reflexivity|].
  destruct (decide (c = "."%char)) as [->|Hne]; [reflexivity|].
  rewrite Contains_dot_cons. destruct (decide (c = "."%char)); [congruence | exact IH].
Qed.

Lemma splitFrom_nonempty (sep s : string) (skip : nat) (cur : string) :
  splitFrom sep s skip cur <> [].
Proof.
  revert skip cur. induction s as [|c s IH]; intros skip cur; cbn [splitFrom]; [discriminate|].
  destruct skip; [|apply IH]. destruct (HasPrefix _ _); [discriminate | apply IH].
Qed.

Lemma Join_cons (e : string) (l : list string) (sep : string) :
  l <> [] -> Join (e :: l) sep = e +:+ sep +:+ Join l sep.
Proof. destruct l; [congruence | reflexivity]. Qed.

Lemma Join_splitFrom_dot (s cur : string) : Join (splitFrom "." s 0 cur) "." = cur +:+ s.
Proof.
  revert cur. induction s as [|c s IH]; intros cur; cbn [splitFrom HasPrefix].
  - cbn. symmetry. apply str_app_nil_r.
  - destruct (decide ("."%char = c)) as [<-|Hne].
    + cbn [String.length Nat.sub]. rewrite Join_cons by apply splitFrom_nonempty.
      rewrite IH. reflexivity.
    + rewrite IH, str_app_assoc. reflexivity.
Qed.

Lemma tail_splitFrom_dot (s cur : string) :
  Contains s "." = true ->
  tail (splitFrom "." s 0 cur) = splitFrom "." (afterFirstDot s) 0 "".
Proof.
  revert cur. induction s as [|c s IH]; intros cur H; [discriminate|].
  rewrite Contains_dot_cons in H. cbn [splitFrom HasPrefix afterFirstDot].
  destruct (decide (c = "."%char)) as [->|Hne].
  - destruct (decide ("."%char = "."%char)); [reflexivity | congruence].
  - destruct (decide ("."%char = c)); [congruence|]. apply IH, H.
Qed.

(** [getExt] is the path from its first dot on, the dot included. *)
Lemma getExt_spec (s : string) :
  getExt s = if Contains s "." then "." +:+ afterFirstDot s else "".
Proof.
  unfold getExt. pose proof (Index_lower s ".") as Hl.
  destruct (Contains s ".") eqn:E.
  - pose proof E as E'. unfold Contains in E'. apply Z.leb_le in E'.
    destruct (Z.eqb_spec (Index s ".") (-1)); [lia|].
    unfold Split. rewrite (tail_splitFrom_dot _ _ E), Join_splitFrom_dot. reflexivity.
  - unfold Contains in E. apply Z.leb_gt in E.
    destruct (Z.eqb_spec (Index s ".") (-1)); [reflexivity | lia].
Qed.

Lemma beforeFirstDot_getExt (s : string) : s = beforeFirstDot s +:+ getExt s.
Proof.
  rewrite getExt_spec.
  induction s as [|c s IH]; [reflexivity|].
  rewrite Contains_dot_cons. cbn [beforeFirstDot afterFirstDot].
  destruct (decide (c = "."%char)) as [->|Hne]; [reflexivity|].
  rewrite str_app_cons, <- IH. reflexivity.
Qed.

Lemma name_beforeFirstDot (r : string) :
  String.substring 0 (String.length r - String.length (getExt r)) r = beforeFirstDot r.
Proof.
  rewrite (beforeFirstDot_getExt r) at 1 3.
  rewrite str_length_app.
  replace (String.length (beforeFirstDot r) + String.length (getExt r)
           - String.length (getExt r))%nat with (String.length (beforeFirstDot r)) by lia.
  apply substring_0_app.
Qed.

Lemma compileMatch_none (options : RenderOptions) (r ext : string) (f : File)
      (extensions : list string) (t : Template) :
  ext ∉ extensions -> compileMatch options r ext f extensions t = Some t.
Proof.
  induction extensions as [|e l IH]; intros Hn; cbn [compileMatch]; [reflexivity|].
  apply not_elem_of_cons in Hn as [Hne Hn].
  destruct (String.eqb_spec ext e); [congruence | apply IH, Hn].
Qed.

Lemma compileMatch_some (options : RenderOptions) (r ext : string) (f : File)
      (extensions : list string) (t : Template) :
  ext ∈ extensions ->
  compileMatch options r ext f extensions t = compileMatch options r ext f [ext] t.
Proof.
  induction extensions as [|e l IH]; intros Hin; [inversion Hin|].
  cbn [compileMatch]. rewrite String.eqb_refl.
  destruct (String.eqb_spec ext e) as [->|Hne]; [reflexivity|].
  apply elem_of_cons in Hin as [?|Hin]; [congruence|].
  rewrite (IH Hin). cbn [compileMatch]. rewrite String.eqb_refl. reflexivity.
Qed.

Lemma ToSlash_app (a b : string) : ToSlash (a +:+ b) = ToSlash a +:+ ToSlash b.
Proof.
  induction a as [|c a IH]; [reflexivity|].
  rewrite str_app_cons. cbn [ToSlash]. rewrite IH. reflexivity.
Qed.

(** C9 (as the code has it): for an entry of the walk with relative path
    [r], the extension is the part of [r] from its first dot on, the dot
    included (".tmpl", ".go.html"), and empty when [r] has no dot; the
    entry is compiled exactly when this extension is equal to an entry of
    the configured list, and is left out otherwise; the name of the template
    is [r] without that extension, with every path separator turned into a
    slash. *)
Theorem compileFile_by_extension (options : RenderOptions) (f : File) (t : Template) :
  let r := filePath f in
  let ext := getExt r in
  let name := String.substring 0 (String.length r - String.length ext) r in
  ext = (if Contains r "." then "." +:+ afterFirstDot r else "") /\
  r = name +:+ ext /\
  Contains name "." = false /\
  (ext ∉ Extensions options -> compileFile options f t = Some t) /\
  (ext ∈ Extensions options ->
     match fileData f with
     | None => compileFile options f t = None
     | Some buf =>
         match parseTemplate (Left (Delims_ options)) (Right (Delims_ options)) buf with
         | None => compileFile options f t = None
         | Some body =>
             exists t', compileFile options f t = Some t' /\
                        tmplDefs t' = <[ToSlash name := body]> (tmplDefs t) /\
                        tmplDefs t' !! ToSlash name = Some body
         end
     end) /\
  (forall a b, ToSlash (a +:+ String Separator b) = ToSlash a +:+ String "/" (ToSlash b)) /\
  (forall c a, c <> Separator -> ToSlash (String c a) = String c (ToSlash a)).
Proof.
  intros r ext name.
  assert (Hname : name = beforeFirstDot r) by apply name_beforeFirstDot.
  split; [apply getExt_spec|].
  split; [rewrite Hname; apply beforeFirstDot_getExt|].
  split; [rewrite Hname; apply Contains_beforeFirstDot|].
  split; [intros Hn; apply compileMatch_none, Hn|].
  split; [|split].
  - intros Hin. unfold compileFile. fold r. fold ext. rewrite (compileMatch_some _ _ _ _ _ _ Hin).
    cbn [compileMatch]. rewrite String.eqb_refl.
    destruct (fileData f) as [buf|]; [|reflexivity].
    destruct (parseTemplate _ _ buf) as [body|]; [|reflexivity].
    eexists. split; [reflexivity|]. cbn [tmplDefs]. split.
    + f_equal. clear. induction (Funcs options) as [|fm l IH] using rev_ind; [reflexivity|].
      rewrite foldl_snoc. cbn. exact IH.
    + apply lookup_insert_eq.
  - intros a b. rewrite ToSlash_app. cbn [ToSlash].
    destruct (decide (Separator = Separator)); [reflexivity | congruence].
  - intros c a Hc. cbn [ToSlash]. destruct (decide (c = Separator)); [congruence | reflexivity].
Qed.

(** *** The compression filter: the response as a whole *)

(** The part of the stream's header that is still to be sent. *)
Lemma runHandler_gzip_written (h : Handler) (st : World) (g : gzipWriter) :
  gzs st = Some g -> gzClosed g = false ->
  exists g2,
    gzs (fst (runHandler GzipResponseWriter h st)) = Some g2 /\
    gzClosed g2 = false /\
    gzInput g2 = gzInput g ++ written GzipResponseWriter h st /\
    rwBody (resp (fst (runHandler GzipResponseWriter h st)))
      ++ (if gzWroteHeader g2 then [] else gzipHeader)
    = rwBody (resp st) ++ (if gzWroteHeader g then [] else gzipHeader).
Proof.
  revert st g.
  induction h as [| |k v h IH|k cont IH|code h IH|p h IH]; intros st g Hg Hopen;
    cbn [runHandler written fst].
  - exists g. rewrite app_nil_r. auto.
  - exists g. rewrite app_nil_r. auto.
  - apply (IH (onResp (rw_HeaderSet k v) st) g); assumption.
  - apply (IH _ st g); assumption.
  - apply (IH (onResp (rw_WriteHeader code) st) g); assumption.
  - cbn [Writer_Write].
    assert (Hw : exists g1,
               gzs (gzipResponseWriter_Write p st) = Some g1 /\ gzClosed g1 = false /\
               gzInput g1 = gzInput g ++ p /\ gzWroteHeader g1 = true /\
               rwBody (resp (gzipResponseWriter_Write p st))
               = rwBody (resp st) ++ (if gzWroteHeader g then [] else gzipHeader)).
    { unfold gzipResponseWriter_Write, gzip_Write. rewrite Hg, Hopen.
      destruct (Nat.eqb _ 0), (gzWroteHeader g); cbn; eexists; repeat split;
        rewrite ?app_nil_r; reflexivity. }
    destruct Hw as (g1 & Hg1 & Hopen1 & Hin1 & Hwrote1 & Hbody1).
    destruct (IH _ g1 Hg1 Hopen1) as (g2 & Hg2 & Hopen2 & Hin2 & Hbody2).
    exists g2. repeat split; try assumption.
    + rewrite Hin2, Hin1, <- app_assoc. reflexivity.
    + rewrite Hbody2, Hwrote1, app_nil_r. exact Hbody1.
Qed.

(** X1: the body of a compressed response is the body so far followed by
    one gzip stream: the stream's header once, the deflate stream of all the
    chunks the chain wrote, in order, and the trailer of those chunks,
    whether the chain returns or panics.  No chunk reaches the body
    uncompressed. *)
Theorem serveGzip_body_is_one_gzip_stream (st : World) (r : Request) (c : Context) :
  (exists a b, Header_Get (reqHeader r) HeaderAcceptEncoding = a +:+ "gzip" +:+ b) ->
  let chunks := match ctxRest c with
                | Some h => written GzipResponseWriter h (beforeNext st)
                | None => []
                end in
  rwBody (resp (fst (fst (serveGzip st r c))))
  = rwBody (resp st) ++ gzipHeader ++ deflate chunks ++ gzipTrailer chunks.
Proof.
  intros Hacc chunks. rewrite (serveGzip_accept _ _ _ Hacc).
  unfold Next, MapTo. cbn [ctxRest ctxWriter].
  assert (Hclose : forall st2 g2,
             gzs st2 = Some g2 -> gzClosed g2 = false ->
             rwBody (resp (closeGzip st2)) = rwBody (resp st2) ++ closeBytes g2).
  { intros st2 g2 Hg2 Hopen2. unfold closeGzip. rewrite Hg2.
    pose proof (gzip_Close_open g2 (resp st2) Hopen2) as H.
    destruct (gzip_Close g2 (resp st2)) as [g3 w3]. cbn. apply H. }
  destruct (ctxRest c) as [h|].
  - destruct (runHandler_gzip_written h (beforeNext st) gzip_NewWriter eq_refl eq_refl)
      as (g2 & Hg2 & Hopen2 & Hin2 & Hbody2).
    destruct (runHandler GzipResponseWriter h (beforeNext st)) as [st2 o].
    cbn [fst] in Hg2, Hbody2. unfold gzip_NewWriter in Hin2, Hbody2.
    cbn [gzInput gzWroteHeader app] in Hin2, Hbody2.
    subst chunks.
    assert (Hfin : rwBody (resp st2) ++ closeBytes g2
                   = rwBody (resp st) ++ gzipHeader
                     ++ deflate (written GzipResponseWriter h (beforeNext st))
                     ++ gzipTrailer (written GzipResponseWriter h (beforeNext st))).
    { unfold closeBytes. rewrite app_assoc, Hbody2, Hin2. cbn. rewrite <- app_assoc.
      reflexivity. }
    destruct o; cbn [afterNext fst].
    + rewrite (Hclose _ g2) by exact Hg2 || exact Hopen2. exact Hfin.
    + rewrite (Hclose _ g2) by exact Hg2 || exact Hopen2. exact Hfin.
  - subst chunks. cbn [afterNext fst].
    rewrite (Hclose _ gzip_NewWriter) by reflexivity. reflexivity.
Qed.

(** X2: a compressed response always ends with a status: the one the chain
    left, or 200, implied by the write of the deferred close, when the chain
    left none. *)
Theorem serveGzip_status_after_close (st : World) (r : Request) (c : Context) :
  (exists a b, Header_Get (reqHeader r) HeaderAcceptEncoding = a +:+ "gzip" +:+ b) ->
  let '(st2, _, _) := Next (MapTo GzipResponseWriter c) (beforeNext st) in
  rwStatus (resp (fst (fst (serveGzip st r c))))
  = Some (match rwStatus (resp st2) with Some code => code | None => 200 end).
Proof.
  intros Hacc. rewrite (serveGzip_accept _ _ _ Hacc).
  pose proof (Next_open (MapTo GzipResponseWriter c) (beforeNext st) gzip_NewWriter
                eq_refl eq_refl eq_refl) as (g2 & Hg2 & Hopen).
  destruct (Next (MapTo GzipResponseWriter c) (beforeNext st)) as [[st2 c2] o].
  cbn [fst] in Hg2.
  destruct o; cbn [afterNext fst]; unfold closeGzip; cbn [onResp gzs resp];
    rewrite Hg2; unfold gzip_Close; rewrite Hopen;
    destruct (gzWroteHeader g2); cbn; destruct (rwStatus (resp st2)); reflexivity.
Qed.

(** X3: with a sniffer that never answers the empty string (as
    [http.DetectContentType] never does), the wrapper decides Content-Type
    on the first chunk written while it is unset, and no later chunk changes
    the headers. *)
Theorem gzipResponseWriter_sniffs_first_chunk (p q : list byte) (st : World) :
  (forall x, DetectContentType x <> "") ->
  Header_Get (rwHeader (resp st)) "Content-Type" = "" ->
  Header_Get (rwHeader (resp (gzipResponseWriter_Write p st))) "Content-Type"
  = DetectContentType p /\
  rwHeader (resp (gzipResponseWriter_Write q (gzipResponseWriter_Write p st)))
  = rwHeader (resp (gzipResponseWriter_Write p st)).
Proof.
  intros Hdet Hunset.
  assert (Hhdr : forall x s, rwHeader (resp (gzipResponseWriter_Write x s))
                 = if Nat.eqb (String.length (Header_Get (rwHeader (resp s)) "Content-Type")) 0
                   then Header_Set (rwHeader (resp s)) "Content-Type" (DetectContentType x)
                   else rwHeader (resp s)).
  { intros x s. unfold gzipResponseWriter_Write, gzip_Write.
    change HeaderContentType with "Content-Type".
    destruct (Nat.eqb _ 0), (gzs s) as [g|]; cbn; try reflexivity;
      destruct (gzClosed g); cbn; try reflexivity; destruct (gzWroteHeader g); reflexivity. }
  assert (Hp : Header_Get (rwHeader (resp (gzipResponseWriter_Write p st))) "Content-Type"
               = DetectContentType p).
  { rewrite Hhdr, Hunset. cbn [String.length Nat.eqb].
    apply (Header_Get_Set_ContentType _ (DetectContentType p)). }
  split; [exact Hp|].
  rewrite (Hhdr q), Hp.
  destruct (DetectContentType p) as [|a s] eqn:E; [exfalso; apply (Hdet p), E|].
  reflexivity.
Qed.

(** *** The render helper: strings, XML and successful HTML *)

(** X4: [JSON] and [JSONString] agree: [JSON] answers 500 through
    [http.Error] exactly when [JSONString] returns an error, with that
    error's text; otherwise what [JSON] appends to the body is the prefix
    followed by the bytes of the string [JSONString] returns. *)
Theorem Render_JSON_writes_JSONString (r : Render) (status : Z) (v : V) :
  match Render_JSONString r v with
  | Err err => Render_w (Render_JSON r status v) = http_Error (Render_w r) err 500
  | Ok s =>
      rwBody (Render_w (Render_JSON r status v))
      = rwBody (Render_w r) ++ PrefixJSON (Render_opt r) ++ bytes s /\
      rwHeader (Render_w (Render_JSON r status v)) !! "Content-Type"
      = Some ["application/json" +:+ Render_compiledCharset r]
  end.
Proof.
  unfold Render_JSONString, Render_JSON.
  destruct (if IndentJSON (Render_opt r) then _ else _) as [result|err]; [|reflexivity].
  unfold bytes. rewrite String.list_byte_of_string_of_list_byte.
  change ContentType with "Content-Type". change ContentJSON with "application/json".
  destruct (PrefixJSON (Render_opt r)) as [|b pre]; cbn [length Nat.ltb Nat.leb];
    cbn -[String.append]; rewrite <- ?app_assoc; split;
    try reflexivity; apply Header_Set_ContentType.
Qed.

Section XML.

Variable xml_Marshal : V -> Result (list byte).
Variable xml_MarshalIndent : V -> string -> string -> Result (list byte).

(** X5: [XML] serializes with [MarshalIndent(v, "", "  ")] when IndentXML is
    set and with [Marshal] otherwise.  On an error the response is that of
    [http.Error] with status 500 and nothing of the XML path is written; on
    success it sets Content-Type to "text/xml" and the charset suffix,
    writes the status, then the XML prefix in a call of its own when it is
    not empty, then the payload. *)
Theorem Render_XML_response (r : Render) (status : Z) (v : V) :
  let cs := Render_compiledCharset r in
  let w := Render_w r in
  let w' := Render_w (Render_XML xml_Marshal xml_MarshalIndent r status v) in
  match (if IndentXML (Render_opt r) then xml_MarshalIndent v "" "  " else xml_Marshal v) with
  | Err err =>
      w' = http_Error w err 500 /\
      rwBody w' = rwBody w ++ bytes (err +:+ newline) /\
      rwHeader w' !! "Content-Type" = Some ["text/plain; charset=utf-8"] /\
      (rwStatus w = None -> rwStatus w' = Some 500)
  | Ok result =>
      rwLog w' = rwLog w ++ [EvHeaderSet "Content-Type" ("text/xml" +:+ cs);
                             EvWriteHeader status]
                         ++ (if decide (PrefixXML (Render_opt r) = []) then []
                             else [EvWrite (PrefixXML (Render_opt r))])
                         ++ [EvWrite result] /\
      rwBody w' = rwBody w ++ PrefixXML (Render_opt r) ++ result /\
      rwHeader w' !! "Content-Type" = Some ["text/xml" +:+ cs] /\
      (rwStatus w = None -> rwStatus w' = Some status)
  end.
Proof.
  intros cs w w'. subst cs w w'. unfold Render_XML.
  destruct (if IndentXML (Render_opt r) then _ else _) as [result|err].
  - change ContentType with "Content-Type". change ContentXML with "text/xml".
    destruct (PrefixXML (Render_opt r)) as [|b pre]; cbn [length Nat.ltb Nat.leb];
      cbn -[String.append]; rewrite <- ?app_assoc; repeat split;
      try apply Header_Set_ContentType.
    + intros H; rewrite H; reflexivity.
    + intros H; rewrite H; reflexivity.
  - cbn -[String.append bytes]. repeat split.
    + unfold Header_Set. rewrite lookup_insert_ne by (vm_compute; discriminate).
      rewrite canonical_ContentType. apply lookup_insert_eq.
    + intros H; rewrite H; reflexivity.
Qed.

End XML.

(** X6: when the execution succeeds, [HTML] sets Content-Type to the
    configured HTML content type and the charset suffix, writes the status,
    and copies the output in one [Write]; for an empty output it makes no
    [Write] at all.  The render value keeps the function table
    [renderBytes] left. *)
Theorem Render_HTML_response
        (fuel : nat) (r : Render) (status : Z) (name : string) (binding : V)
        (htmlOpt : list HTMLRenderOptions) (r1 : Render) (out : string) :
  Render_renderBytes fuel r name binding htmlOpt = (r1, Some (Ok out)) ->
  exists r2,
    Render_HTML fuel r status name binding htmlOpt = Some r2 /\
    rwLog (Render_w r2)
    = rwLog (Render_w r)
      ++ [EvHeaderSet "Content-Type"
            (HTMLContentType (Render_opt r) +:+ Render_compiledCharset r);
          EvWriteHeader status]
      ++ (if decide (out = "") then [] else [EvWrite (bytes out)]) /\
    rwBody (Render_w r2) = rwBody (Render_w r) ++ bytes out /\
    (rwStatus (Render_w r) = None -> rwStatus (Render_w r2) = Some status) /\
    Render_t r2 = Render_t r1.
Proof.
  intros H.
  pose proof (Render_renderBytes_writer fuel r name binding htmlOpt) as (Hw & Ho & Hc).
  unfold Render_HTML. rewrite H in *. cbn [fst] in Hw, Ho, Hc.
  eexists. split; [reflexivity|]. cbn [Render_w Render_t withWriter]. rewrite Hw, Ho, Hc.
  change ContentType with "Content-Type".
  destruct out as [|a out]; cbn -[String.append bytes]; repeat split.
  - rewrite <- app_assoc. reflexivity.
  - cbn. rewrite app_nil_r. reflexivity.
  - intros Hs; rewrite Hs; reflexivity.
  - rewrite <- !app_assoc. reflexivity.
  - intros Hs; rewrite Hs; reflexivity.
Qed.

(** X7: [HTMLString] makes no call on the response writer, and [HTML]
    answers with what [HTMLString] returns: its string as the body, or its
    error through [http.Error] with status 500; both leave the same
    function table. *)
Theorem Render_HTMLString_agrees_with_HTML
        (fuel : nat) (r : Render) (status : Z) (name : string) (binding : V)
        (htmlOpt : list HTMLRenderOptions) :
  let '(r1, res) := Render_HTMLString fuel r name binding htmlOpt in
  Render_w r1 = Render_w r /\
  match res with
  | Some (Ok out) =>
      exists r2, Render_HTML fuel r status name binding htmlOpt = Some r2 /\
                 rwBody (Render_w r2) = rwBody (Render_w r) ++ bytes out /\
                 Render_t r2 = Render_t r1
  | Some (Err err) =>
      exists r2, Render_HTML fuel r status name binding htmlOpt = Some r2 /\
                 Render_w r2 = http_Error (Render_w r) err 500 /\
                 Render_t r2 = Render_t r1
  | None => Render_HTML fuel r status name binding htmlOpt = None
  end.
Proof.
  pose proof (Render_renderBytes_writer fuel r name binding htmlOpt) as (Hw & Ho & Hc).
  unfold Render_HTMLString, Render_HTML.
  destruct (Render_renderBytes fuel r name binding htmlOpt) as [r1 [[out|err]|]];
    cbn [fst] in Hw, Ho, Hc; (split; [exact Hw|]).
  - eexists. split; [reflexivity|]. cbn [Render_w Render_t withWriter]. split; [|reflexivity].
    rewrite Hw. destruct out as [|a out]; cbn.
    + rewrite app_nil_r. reflexivity.
    + reflexivity.
  - eexists. split; [reflexivity|]. cbn [Render_w Render_t withWriter]. rewrite Hw. auto.
  - reflexivity.
Qed.

(** X8: the functions [addYield] registers stay in the render value's
    function table: a later rendering without a layout leaves the table as
    it is, so a [yield] in it still renders the earlier template on the
    earlier value; a later rendering with a layout replaces both functions,
    and the table is then the one a single registration gives. *)
Theorem Render_addYield_persists_and_replaces
        (fuel : nat) (r : Render) (n1 n2 name : string) (b1 b2 binding : V) :
  let r1 := Render_addYield r n1 b1 in
  fst (Render_renderBytes fuel r1 name binding [mkHTMLRenderOptions ""]) = r1 /\
  tmplFuncs (Render_t (fst (Render_renderBytes fuel r1 name binding [mkHTMLRenderOptions ""])))
    !! "yield" = Some (FuncYield n1 b1) /\
  Render_t (Render_addYield r1 n2 b2) = Render_t (Render_addYield r n2 b2).
Proof.
  intros r1. split; [reflexivity|]. split.
  - apply (addYield_funcs r n1 b1).
  - subst r1. unfold Render_addYield, Template_Funcs. cbn [Render_t tmplDefs tmplFuncs].
    f_equal. apply map_eq. intros f.
    destruct (decide (f = "yield")) as [->|Hy].
    { rewrite !(lookup_union_Some_l _ _ _ (FuncYield n2 b2)) by reflexivity. reflexivity. }
    destruct (decide (f = "current")) as [->|Hc].
    { rewrite !(lookup_union_Some_l _ _ _ (FuncConst (TString n2) None)) by reflexivity.
      reflexivity. }
    assert (Hnone : forall (x : string) (y : V),
               ({[ "yield" := FuncYield x y; "current" := FuncConst (TString x) None ]}
                : gmap string Func) !! f = None).
    { intros x y. rewrite lookup_insert_ne by congruence.
      apply lookup_singleton_ne. congruence. }
    rewrite !lookup_union_r by apply Hnone. reflexivity.
Qed.



(** *** Template discovery: the walk as a whole *)

Lemma eligible_spec (options : RenderOptions) (f : File) :
  eligible options f = true <-> getExt (filePath f) ∈ Extensions options.
Proof. unfold eligible. apply bool_decide_eq_true. Qed.

Lemma compileFile_skip (options : RenderOptions) (f : File) (t : Template) :
  eligible options f = false -> compileFile options f t = Some t.
Proof.
  intros H. apply compileMatch_none. intros Hin.
  apply eligible_spec in Hin. congruence.
Qed.

Lemma compileFile_eligible (options : RenderOptions) (f : File) (t : Template) :
  eligible options f = true ->
  compileFile options f t
  = match fileData f with
    | None => None
    | Some buf =>
        match parseTemplate (Left (Delims_ options)) (Right (Delims_ options)) buf with
        | None => None
        | Some body =>
            Some (mkTemplate
                    (<[templateName f := body]> (tmplDefs t))
                    (helperFuncs
                     ∪ tmplFuncs (foldl (fun t funcs => Template_Funcs funcs t) t
                                        (Funcs options))))
        end
    end.
Proof.
  intros H. apply eligible_spec in H. unfold compileFile.
  rewrite (compileMatch_some _ _ _ _ _ _ H). cbn [compileMatch]. rewrite String.eqb_refl.
  destruct (fileData f) as [buf|]; [|reflexivity].
  destruct (parseTemplate _ _ buf) as [body|]; [|reflexivity].
  cbn [Template_Funcs tmplDefs tmplFuncs]. unfold templateName. do 3 f_equal.
  induction (Funcs options) as [|fm l IH] using rev_ind; [reflexivity|].
  rewrite foldl_snoc. exact IH.
Qed.




Lemma compileWalk_filter (options : RenderOptions) (files : list File) (t : Template) :
  compileWalk options (filter (fun f => eligible options f = true) files) t
  = compileWalk options files t.
Proof.
  revert t. induction files as [|f files IH]; intros t; [reflexivity|].
  rewrite filter_cons. destruct (decide (eligible options f = true)) as [E|E].
  - cbn [compileWalk]. destruct (compileFile options f t); [apply IH | reflexivity].
  - apply not_true_is_false in E. cbn [compileWalk].
    rewrite (compileFile_skip _ _ _ E). apply IH.
Qed.

(** X11: entries whose extension is not configured have no effect on the
    compiled set: [compile] gives the same result on the walk and on the
    walk without them. *)
Theorem compile_ignores_other_extensions (walked : list File) (options : RenderOptions) :
  compile (filter (fun f => eligible options f = true) walked) options
  = compile walked options.
Proof.
  unfold compile. destruct (parseTemplate _ _ "Martini"); [|reflexivity].
  apply compileWalk_filter.
Qed.

Lemma foldl_Funcs_last (t : Template) (l : list (gmap string Func)) (fm : gmap string Func) :
  tmplFuncs (foldl (fun t funcs => Template_Funcs funcs t) t (l ++ [fm]))
  = fm ∪ tmplFuncs (foldl (fun t funcs => Template_Funcs funcs t) t l).
Proof. rewrite foldl_snoc. reflexivity. Qed.

Lemma foldl_Funcs_none (t : Template) (l : list (gmap string Func)) (f : string) :
  (forall fm, fm ∈ l -> fm !! f = None) ->
  tmplFuncs (foldl (fun t funcs => Template_Funcs funcs t) t l) !! f = tmplFuncs t !! f.
Proof.
  induction l as [|fm l IH] using rev_ind; intros H; [reflexivity|].
  rewrite foldl_Funcs_last. rewrite lookup_union_r.
  - apply IH. intros fm' Hin. apply H, elem_of_app. auto.
  - apply H, elem_of_app. right. apply list_elem_of_singleton. reflexivity.
Qed.

(** X12: in the function table a compiled file leaves, [yield] and
    [current] are always the built-in helpers, whatever the configured
    function maps or the table held under these names; for any other name,
    a definition in the last configured map wins over the earlier maps, and
    a name no configured map defines keeps what the table held. *)
Theorem compileFile_function_table
        (options : RenderOptions) (f : File) (t t' : Template) :
  eligible options f = true ->
  compileFile options f t = Some t' ->
  tmplFuncs t' !! "yield"
  = Some (FuncConst (TString "") (Some "yield called with no layout defined")) /\
  tmplFuncs t' !! "current" = Some (FuncConst (TString "") None) /\
  (forall name l fm fn,
     name <> "yield" -> name <> "current" ->
     Funcs options = l ++ [fm] -> fm !! name = Some fn ->
     tmplFuncs t' !! name = Some fn) /\
  (forall name,
     name <> "yield" -> name <> "current" ->
     (forall fm, fm ∈ Funcs options -> fm !! name = None) ->
     tmplFuncs t' !! name = tmplFuncs t !! name).
Proof.
  intros He Hc. rewrite (compileFile_eligible _ _ _ He) in Hc.
  destruct (fileData f) as [buf|]; [|discriminate].
  destruct (parseTemplate _ _ buf) as [body|]; [|discriminate].
  injection Hc as <-. cbn [tmplFuncs].
  assert (Hother : forall name, name <> "yield" -> name <> "current" ->
                                helperFuncs !! name = None).
  { intros name Hy Hcur. unfold helperFuncs. rewrite lookup_insert_ne by congruence.
    apply lookup_singleton_ne. congruence. }
  repeat split.
  - apply lookup_union_Some_l. reflexivity.
  - apply lookup_union_Some_l. reflexivity.
  - intros name l fm fn Hy Hcur Hl Hfm. rewrite lookup_union_r by (apply Hother; assumption).
    rewrite Hl, foldl_Funcs_last. apply lookup_union_Some_l, Hfm.
  - intros name Hy Hcur Hnone. rewrite lookup_union_r by (apply Hother; assumption).
    apply foldl_Funcs_none, Hnone.
Qed.

Lemma afterFirstDot_app (a x : string) :
  Contains a "." = true -> afterFirstDot (a +:+ x) = afterFirstDot a +:+ x.
Proof.
  induction a as [|c a IH]; intros H; [discriminate|].
  rewrite Contains_dot_cons in H. rewrite str_app_cons. cbn [afterFirstDot].
  destruct (decide (c = "."%char)); [reflexivity | apply IH, H].
Qed.

Lemma Contains_app_l (a x substr : string) :
  Contains a substr = true -> Contains (a +:+ x) substr = true.
Proof.
  intros H. apply Contains_spec in H as (u & v & ->). apply Contains_spec.
  exists u, (v +:+ x). rewrite !str_app_assoc. reflexivity.
Qed.

(** X13: a dot in a directory name counts as the start of the extension: a
    path whose directory part has a dot has as extension everything from
    that dot on, path separator and file name included, so the entry is
    skipped whenever no configured extension contains a path separator. *)
Theorem compileFile_dotted_directory
        (options : RenderOptions) (dir file : string) (data : option string) (t : Template) :
  Contains dir "." = true ->
  (forall e, e ∈ Extensions options -> Contains e (String Separator "") = false) ->
  getExt (dir +:+ String Separator file) = getExt dir +:+ String Separator file /\
  compileFile options (mkFile (dir +:+ String Separator file) data) t = Some t.
Proof.
  intros Hdot Hext.
  assert (Hg : getExt (dir +:+ String Separator file) = getExt dir +:+ String Separator file).
  { rewrite !getExt_spec, Hdot, (Contains_app_l _ _ _ Hdot), afterFirstDot_app by exact Hdot.
    reflexivity. }
  split; [exact Hg|].
  apply compileMatch_none. cbn [filePath]. rewrite Hg. intros Hin.
  apply Hext in Hin.
  assert (Contains (getExt dir +:+ String Separator file) (String Separator "") = true).
  { apply Contains_spec. exists (getExt dir), file. reflexivity. }
  congruence.
Qed.




(** *** Construction of the render value *)

(** X15: [Renderor] writes "RequestStartTime" into the process-wide [Data]
    only when the entry is missing or nil: afterwards the entry is never
    nil, a value already there is kept, every other entry is untouched, and
    no later call, at whatever time and with whatever arguments, changes
    [Data] again; so the entry holds the time of the first call, not of the
    current request.  This holds also when [compile] panics. *)
Theorem Renderor_start_time_set_once
        (dev : bool) (now : Z) (walked walkedAgain : list File) (Data : gmap string Any)
        (res : ResponseWriter) (options : list RenderOptions) :
  let Data1 := fst (Renderor dev now walked walkedAgain Data res options) in
  Data_index Data1 "RequestStartTime" <> AnyNil /\
  (Data_index Data "RequestStartTime" = AnyNil ->
   Data1 !! "RequestStartTime" = Some (AnyTime now)) /\
  (Data_index Data "RequestStartTime" <> AnyNil -> Data1 = Data) /\
  (forall key, key <> "RequestStartTime" -> Data1 !! key = Data !! key) /\
  (forall dev' now' walked' walkedAgain' res' options',
     fst (Renderor dev' now' walked' walkedAgain' Data1 res' options') = Data1).
Proof.
  intros Data1.
  assert (Hfst : forall d n w w' D r o,
             fst (Renderor d n w w' D r o)
             = match Data_index D "RequestStartTime" with
               | AnyNil => <["RequestStartTime" := AnyTime n]> D
               | _ => D
               end).
  { intros d n w w' D r o. unfold Renderor.
    destruct (compile w _); [|reflexivity].
    destruct d; [|reflexivity]. destruct (compile w' _); reflexivity. }
  assert (Hset : Data_index Data1 "RequestStartTime" <> AnyNil).
  { subst Data1. rewrite Hfst.
    destruct (Data_index Data "RequestStartTime") eqn:E; try (rewrite E; discriminate).
    unfold Data_index. rewrite lookup_insert_eq. discriminate. }
  split; [exact Hset|]. subst Data1. repeat split.
  - intros E. rewrite Hfst, E. apply lookup_insert_eq.
  - intros E. rewrite Hfst. destruct (Data_index Data "RequestStartTime"); congruence.
  - intros key Hk. rewrite Hfst.
    destruct (Data_index Data "RequestStartTime"); try reflexivity.
    apply lookup_insert_ne. congruence.
  - intros d n w w' r o. rewrite (Hfst d n w w').
    destruct (Data_index (fst (Renderor dev now walked walkedAgain Data res options))
                         "RequestStartTime"); congruence.
Qed.


(** *** The render helper downstream of the compression filter *)

Lemma gzipResponseWriter_Write_header (x : list byte) (s : World) :
  rwHeader (resp (gzipResponseWriter_Write x s))
  = if Nat.eqb (String.length (Header_Get (rwHeader (resp s)) "Content-Type")) 0
    then Header_Set (rwHeader (resp s)) "Content-Type" (DetectContentType x)
    else rwHeader (resp s).
Proof.
  unfold gzipResponseWriter_Write, gzip_Write. change HeaderContentType with "Content-Type".
  destruct (Nat.eqb _ 0), (gzs s) as [g|]; cbn; try reflexivity;
    destruct (gzClosed g); cbn; try reflexivity; destruct (gzWroteHeader g); reflexivity.
Qed.

Lemma gzipResponseWriter_Write_typed (x : list byte) (s : World) (a : ascii) (ct : string) :
  Header_Get (rwHeader (resp s)) "Content-Type" = String a ct ->
  rwHeader (resp (gzipResponseWriter_Write x s)) = rwHeader (resp s).
Proof. intros H. rewrite gzipResponseWriter_Write_header, H. reflexivity. Qed.

(** The calls of [Render_JSON_calls] on the unwrapped writer give the
    response of [JSON]. *)
Lemma Render_JSON_calls_direct (r : Render) (status : Z) (v : V) (g : option gzipWriter) :
  resp (fst (runHandler DirectWriter (Render_JSON_calls r status v) (mkWorld (Render_w r) g)))
  = Render_w (Render_JSON r status v).
Proof.
  unfold Render_JSON_calls, Render_JSON.
  destruct (if IndentJSON (Render_opt r) then _ else _) as [result|err].
  - destruct (Nat.ltb 0 (length (PrefixJSON (Render_opt r)))); reflexivity.
  - reflexivity.
Qed.

(** X17: a successful [JSON] answer given downstream of the filter on a
    compressed request keeps its own content type (the wrapper does not
    sniff, since Content-Type is set before the first write), carries
    Content-Encoding: gzip and no Content-Length, and has as body one gzip
    stream of the prefix followed by the payload. *)
Theorem Render_JSON_through_gzip
        (st : World) (req : Request) (wr : Writer) (r : Render) (status : Z) (v : V)
        (result : list byte) :
  (exists a b, Header_Get (reqHeader req) HeaderAcceptEncoding = a +:+ "gzip" +:+ b) ->
  (if IndentJSON (Render_opt r) then json_MarshalIndent v "" "  " else json_Marshal v)
  = Ok result ->
  let final := fst (fst (serveGzip st req
                                   (mkContext wr (Some (Render_JSON_calls r status v))))) in
  let payload := PrefixJSON (Render_opt r) ++ result in
  rwHeader (resp final) !! "Content-Type"
  = Some ["application/json" +:+ Render_compiledCharset r] /\
  rwHeader (resp final) !! "Content-Encoding" = Some ["gzip"] /\
  rwHeader (resp final) !! "Content-Length" = None /\
  rwBody (resp final)
  = rwBody (resp st) ++ gzipHeader ++ deflate payload ++ gzipTrailer payload.
Proof.
  intros Hacc Hok final payload. subst final.
  rewrite (serveGzip_accept _ _ _ Hacc). unfold Next, MapTo. cbn [ctxRest ctxWriter].
  set (h := Render_JSON_calls r status v).
  assert (Hwritten : written GzipResponseWriter h (beforeNext st) = payload).
  { subst h payload. unfold Render_JSON_calls. rewrite Hok.
    destruct (PrefixJSON (Render_opt r)) as [|b pre]; cbn [length Nat.ltb Nat.leb written].
    - rewrite app_nil_r. reflexivity.
    - rewrite app_nil_r. reflexivity. }
  assert (Hhdr : rwHeader (resp (fst (runHandler GzipResponseWriter h (beforeNext st))))
                 = Header_Set (rwHeader (resp (beforeNext st))) "Content-Type"
                              ("application/json" +:+ Render_compiledCharset r)
                 /\ snd (runHandler GzipResponseWriter h (beforeNext st)) = Returned).
  { subst h. unfold Render_JSON_calls. rewrite Hok.
    change ContentType with "Content-Type". change ContentJSON with "application/json".
    set (ct := "application/json" +:+ Render_compiledCharset r).
    assert (Hct : forall hd, Header_Get (Header_Set hd "Content-Type" ct) "Content-Type"
                             = String "a" ("pplication/json" +:+ Render_compiledCharset r)).
    { intros hd. apply (Header_Get_Set_ContentType hd ct). }
    destruct (Nat.ltb 0 (length (PrefixJSON (Render_opt r))));
      cbn [runHandler Writer_Write fst snd]; (split; [|reflexivity]).
    - rewrite (gzipResponseWriter_Write_typed _ _ "a"
                 ("pplication/json" +:+ Render_compiledCharset r)).
      + rewrite (gzipResponseWriter_Write_typed _ _ "a"
                   ("pplication/json" +:+ Render_compiledCharset r)); [reflexivity|].
        apply Hct.
      + rewrite (gzipResponseWriter_Write_typed _ _ "a"
                   ("pplication/json" +:+ Render_compiledCharset r)); apply Hct.
    - rewrite (gzipResponseWriter_Write_typed _ _ "a"
                 ("pplication/json" +:+ Render_compiledCharset r)); [reflexivity|].
      apply Hct. }
  destruct Hhdr as [Hhdr Hout].
  destruct (runHandler_gzip_written h (beforeNext st) gzip_NewWriter eq_refl eq_refl)
    as (g2 & Hg2 & Hopen2 & Hin2 & Hbody2).
  destruct (runHandler GzipResponseWriter h (beforeNext st)) as [st2 o].
  cbn [fst snd] in *. subst o. cbn [afterNext fst]. unfold closeGzip. cbn [onResp gzs resp].
  rewrite Hg2.
  pose proof (gzip_Close_open g2 (rw_HeaderDel "Content-Length" (resp st2)) Hopen2) as Hc.
  destruct (gzip_Close g2 _) as [g3 w3]. destruct Hc as (_ & _ & Hh3 & _ & Hb3).
  cbn [resp]. rewrite Hh3, Hb3. cbn [rw_HeaderDel rwHeader rwBody]. rewrite Hhdr.
  unfold Header_Del, Header_Set. cbn [beforeNext onResp resp rw_HeaderSet rwHeader].
  unfold Header_Set.
  rewrite canonical_ContentLength, canonical_ContentType, canonical_Vary,
    canonical_ContentEncoding.
  repeat split.
  - rewrite lookup_delete_ne by discriminate. apply lookup_insert_eq.
  - rewrite lookup_delete_ne by discriminate.
    rewrite !lookup_insert_ne by discriminate. apply lookup_insert_eq.
  - apply lookup_delete_eq.
  - unfold closeBytes. rewrite app_assoc, Hbody2, Hin2, Hwritten.
    unfold gzip_NewWriter. cbn [gzWroteHeader gzInput app]. rewrite <- app_assoc.
    reflexivity.
Qed.

End Properties.

(* ===================================================================== *)
(** ** Part III — the properties on concrete runs                         *)
(* ===================================================================== *)

#[local] Existing Instance demo.

Lemma gzipRequest_accepts :
  exists a b, Header_Get (reqHeader gzipRequest) HeaderAcceptEncoding = a +:+ "gzip" +:+ b.
Proof. exists "", "". reflexivity. Defined.

Lemma plainRequest_declines :
  ~ (exists a b, Header_Get (reqHeader plainRequest) HeaderAcceptEncoding = a +:+ "gzip" +:+ b).
Proof. intros H. apply Contains_spec in H. vm_compute in H. discriminate H. Defined.

(** The filter on a request with [Accept-Encoding: gzip]. *)
Lemma serveGzip_wraps_writer_witness :
  (exists a b, Header_Get (reqHeader gzipRequest) HeaderAcceptEncoding = a +:+ "gzip" +:+ b) /\
  @serveGzip demo emptyWorld gzipRequest helloContext
  = afterNext (Next (mkContext GzipResponseWriter (ctxRest helloContext))
                    (beforeNext emptyWorld)).
Proof.
  split; [exact gzipRequest_accepts|].
  exact (proj1 (proj2 (@serveGzip_wraps_writer demo emptyWorld gzipRequest helloContext
                                               gzipRequest_accepts))).
Defined.

(** The filter on a request without the header. *)
Lemma serveGzip_passes_through_witness :
  ~ (exists a b, Header_Get (reqHeader plainRequest) HeaderAcceptEncoding = a +:+ "gzip" +:+ b) /\
  @serveGzip demo emptyWorld plainRequest helloContext = (emptyWorld, helloContext, Returned) /\
  rwBody (resp (fst (@runChain demo emptyWorld plainRequest helloContext))) = bytes "hello".
Proof.
  split; [exact plainRequest_declines|].
  destruct (@serveGzip_passes_through demo emptyWorld plainRequest helloContext
                                      plainRequest_declines) as (Hs & Hr & _).
  split; [exact Hs|]. rewrite Hr. reflexivity.
Defined.

(** The stream is closed at the end of a compressed request. *)
Lemma serveGzip_finalizes_witness :
  (exists a b, Header_Get (reqHeader gzipRequest) HeaderAcceptEncoding = a +:+ "gzip" +:+ b) /\
  exists g3, gzs (fst (fst (@serveGzip demo emptyWorld gzipRequest helloContext))) = Some g3 /\
             gzClosed g3 = true.
Proof.
  split; [exact gzipRequest_accepts|].
  pose proof (@serveGzip_finalizes demo emptyWorld gzipRequest helloContext
                                   gzipRequest_accepts) as T.
  destruct (Next (MapTo GzipResponseWriter helloContext) (beforeNext emptyWorld))
    as [[st2 c2] o].
  destruct T as (g2 & st3 & g3 & _ & _ & E & Hg & Hc & _).
  exists g3. rewrite E. split; [exact Hg | exact Hc].
Defined.

(** C3, the claim as stated, fails: on a compressed request whose handler
    sets Content-Length and writes, the deletion of Content-Length is made
    before the stream is closed, and no deletion follows the close; when the
    handler panics instead, the stream is closed but Content-Length is never
    deleted and is still there at the end. *)
Lemma serveGzip_deletes_before_close :
  occursAfter isGzipClose isDelContentLength
    (rwLog (resp (fst (fst (@serveGzip demo emptyWorld gzipRequest helloContext))))) = false /\
  occursAfter isDelContentLength isGzipClose
    (rwLog (resp (fst (fst (@serveGzip demo emptyWorld gzipRequest helloContext))))) = true /\
  snd (@serveGzip demo emptyWorld gzipRequest panicContext) = Panicked /\
  existsb isGzipClose
    (rwLog (resp (fst (fst (@serveGzip demo emptyWorld gzipRequest panicContext))))) = true /\
  existsb isDelContentLength
    (rwLog (resp (fst (fst (@serveGzip demo emptyWorld gzipRequest panicContext))))) = false /\
  Header_Get (rwHeader (resp (fst (fst (@serveGzip demo emptyWorld gzipRequest panicContext)))))
             "Content-Length" = "5".
Proof. vm_compute. repeat split. Qed.

(** C4, the claim as stated, fails: for a value the encoder rejects, the
    body is not the error text but the error text followed by a newline;
    and when 500 is the status asked for, that status is written. *)
Lemma Render_JSON_error_body_has_newline :
  json_Marshal (Collaborators := demo) DChan = Err "json: unsupported type: chan int" /\
  rwStatus (Render_w (@Render_JSON demo demoRender 300 DChan)) = Some 500 /\
  rwBody (Render_w (@Render_JSON demo demoRender 300 DChan))
  = bytes ("json: unsupported type: chan int" +:+ newline) /\
  rwBody (Render_w (@Render_JSON demo demoRender 300 DChan))
  <> bytes "json: unsupported type: chan int" /\
  EvWriteHeader 500 ∈ rwLog (Render_w (@Render_JSON demo demoRender 500 DChan)).
Proof.
  vm_compute. repeat split; [discriminate|].
  apply list_elem_of_In. cbn. auto.
Qed.

(** The template "nope" is not defined. *)
Lemma Render_HTML_failure_witness :
  @Render_renderBytes demo 1 demoRender "nope" DNil []
  = (demoRender, Some (Err (undefinedError "nope"))) /\
  exists r2, @Render_HTML demo 1 demoRender 200 "nope" DNil [] = Some r2 /\
             rwBody (Render_w r2) = bytes (undefinedError "nope" +:+ newline).
Proof.
  assert (H : @Render_renderBytes demo 1 demoRender "nope" DNil []
              = (demoRender, Some (Err (undefinedError "nope")))) by reflexivity.
  split; [exact H|].
  destruct (@Render_HTML_failure demo 1 demoRender 200 "nope" DNil [] _ _ H)
    as (r2 & E & _ & _ & Hb & _).
  exists r2. split; [exact E | exact Hb].
Defined.

(** C6, the claim as stated, fails: for the undefined template "nope" the
    body is not the engine's error text but that text followed by a
    newline, as the package's test expects; and when 500 is the status asked
    for, that status is written. *)
Lemma Render_HTML_error_body_has_newline :
  option_map (fun r => rwStatus (Render_w r)) (@Render_HTML demo 1 demoRender 200 "nope" DNil [])
  = Some (Some 500) /\
  option_map (fun r => rwBody (Render_w r)) (@Render_HTML demo 1 demoRender 200 "nope" DNil [])
  = Some (bytes ("html/template: " +:+ quote +:+ "nope" +:+ quote +:+ " is undefined" +:+ newline)) /\
  option_map (fun r => rwBody (Render_w r)) (@Render_HTML demo 1 demoRender 200 "nope" DNil [])
  <> Some (bytes ("html/template: " +:+ quote +:+ "nope" +:+ quote +:+ " is undefined")) /\
  option_map (fun r => existsb (fun e => match e with EvWriteHeader 500 => true | _ => false end)
                               (rwLog (Render_w r)))
             (@Render_HTML demo 1 demoRender 500 "nope" DNil [])
  = Some true.
Proof. vm_compute. repeat split. discriminate. Qed.

(** C9, the claim as stated, fails: the extension of "test.tmpl" is ".tmpl",
    with the dot, not what follows the first dot; a file "page.html" is
    compiled for the extension list [".html"] and not for ["html"]. *)
Lemma getExt_keeps_the_dot :
  getExt "test.tmpl" = ".tmpl" /\
  afterFirstDot "test.tmpl" = "tmpl" /\
  getExt "test.tmpl" <> afterFirstDot "test.tmpl" /\
  (forall t : @Template demo,
     compileFile (mkRenderOptions "" "" ["html"] [] (mkDelims "" "") "" false false [] [] "")
                 (mkFile "page.html" (Some "Hypertext!")) t = Some t).
Proof. repeat split. vm_compute. discriminate. Qed.

(** The runs of the package's tests. *)
Example Test_GetExt :
  getExt "test" = "" /\ getExt "test.tmpl" = ".tmpl" /\ getExt "test.go.html" = ".go.html".
Proof. repeat split. Qed.

Example Test_Render_Layout :
  option_map (fun r => rwBody (Render_w r))
             (@Render_HTML demo 2 layoutRender 200 "content" (DString "jeremy") [])
  = Some (bytes ("head" +:+ newline +:+ "<h1>jeremy</h1>" +:+ newline +:+ newline
                 +:+ "foot" +:+ newline)).
Proof. vm_compute. reflexivity. Qed.

Example Test_Render_Layout_escapes_once :
  option_map (fun r => rwBody (Render_w r))
             (@Render_HTML demo 2 layoutRender 200 "content" (DString "<b>")
                           [mkHTMLRenderOptions "current_layout"])
  = Some (bytes ("content head" +:+ newline +:+ "<h1>&lt;b&gt;</h1>" +:+ newline +:+ newline
                 +:+ "foot" +:+ newline)).
Proof. vm_compute. reflexivity. Qed.

Example Test_Render_JSON :
  let w := Render_w (@Render_JSON demo demoRender 300 (DString "hello")) in
  rwStatus w = Some 300 /\
  Header_Get (rwHeader w) ContentType = "application/json; charset=UTF-8" /\
  rwBody w = bytes (quote +:+ "hello" +:+ quote).
Proof. vm_compute. repeat split. Qed.

Example Test_Render_BinaryData_CustomMimeType :
  let r := withWriter demoRender (rw_HeaderSet ContentType "image/jpeg" emptyResponse) in
  let w := Render_w (Render_WriteData r 200 (bytes "..jpeg data..")) in
  rwStatus w = Some 200 /\
  Header_Get (rwHeader w) ContentType = "image/jpeg" /\
  rwBody w = bytes "..jpeg data..".
Proof. vm_compute. repeat split. Qed.

(** A Content-Type set to the empty string counts as not set. *)
Example WriteData_empty_content_type :
  let r := withWriter demoRender (rw_HeaderSet ContentType "" emptyResponse) in
  Header_Get (rwHeader (Render_w (Render_WriteData r 200 []))) ContentType
  = "application/octet-stream".
Proof. vm_compute. reflexivity. Qed.

(** Only the first Accept-Encoding value is looked at. *)
Example serveGzip_first_value_only :
  @serveGzip demo emptyWorld (mkRequest {[ "Accept-Encoding" := ["identity"; "gzip"] ]})
             helloContext
  = (emptyWorld, helloContext, Returned).
Proof. vm_compute. reflexivity. Qed.

(** [compile] on a directory in the manner of the package's fixtures: the
    directory itself, a sub-directory, and three files, one of them with an
    extension that is not configured. *)
Example compile_fixture_directory :
  match compile [mkFile "." None; mkFile "admin" None;
                 mkFile "admin/index.html" (Some "<h1>Admin</h1>");
                 mkFile "content.html" (Some "<h1>content</h1>");
                 mkFile "hello.tmpl" (Some "<h1>Hello</h1>")]
                (prepareRenderOptions [])
  with
  | Some t =>
      tmplDefs t !! "admin/index" = Some [NText "<h1>Admin</h1>"] /\
      tmplDefs t !! "content" = Some [NText "<h1>content</h1>"] /\
      tmplDefs t !! "hello" = None /\
      tmplDefs t !! "templates" = Some [NText "Martini"] /\
      tmplFuncs t !! "current" = Some (FuncConst (TString "") None)
  | None => False
  end.
Proof. vm_compute. repeat split. Qed.

(** *** Concrete runs of the further properties *)

Lemma serveGzip_body_is_one_gzip_stream_witness :
  (exists a b, Header_Get (reqHeader gzipRequest) HeaderAcceptEncoding = a +:+ "gzip" +:+ b) /\
  rwBody (resp (fst (fst (serveGzip emptyWorld gzipRequest helloContext))))
  = gzipHeader ++ bytes "hello" ++ [x00; x00; x00; x00].
Proof.
  split; [exact gzipRequest_accepts|].
  exact (serveGzip_body_is_one_gzip_stream emptyWorld gzipRequest helloContext
                                           gzipRequest_accepts).
Defined.

Lemma serveGzip_status_after_close_witness :
  (exists a b, Header_Get (reqHeader gzipRequest) HeaderAcceptEncoding = a +:+ "gzip" +:+ b) /\
  rwStatus (resp (fst (fst (serveGzip emptyWorld gzipRequest (mkContext DirectWriter None)))))
  = Some 200.
Proof.
  split; [exact gzipRequest_accepts|].
  exact (serveGzip_status_after_close emptyWorld gzipRequest (mkContext DirectWriter None)
                                      gzipRequest_accepts).
Defined.

Lemma demo_sniffer_never_empty : forall x : list byte, DetectContentType x <> "".
Proof. intros x. discriminate. Defined.

Lemma gzipResponseWriter_sniffs_first_chunk_witness :
  (forall x : list byte, DetectContentType x <> "") /\
  Header_Get (rwHeader (resp emptyWorld)) "Content-Type" = "" /\
  Header_Get (rwHeader (resp (gzipResponseWriter_Write (bytes "<html>") emptyWorld)))
             "Content-Type" = "text/plain; charset=utf-8".
Proof.
  split; [exact demo_sniffer_never_empty|]. split; [reflexivity|].
  exact (proj1 (gzipResponseWriter_sniffs_first_chunk (bytes "<html>") (bytes "more")
                  emptyWorld demo_sniffer_never_empty eq_refl)).
Defined.

Lemma Render_HTML_response_witness :
  Render_renderBytes 1 demoRender "content" (DString "jeremy") []
  = (demoRender, Some (Ok ("<h1>jeremy</h1>" +:+ newline))) /\
  exists r2, Render_HTML 1 demoRender 200 "content" (DString "jeremy") [] = Some r2 /\
             rwBody (Render_w r2) = bytes ("<h1>jeremy</h1>" +:+ newline).
Proof.
  assert (H : Render_renderBytes 1 demoRender "content" (DString "jeremy") []
              = (demoRender, Some (Ok ("<h1>jeremy</h1>" +:+ newline)))) by reflexivity.
  split; [exact H|].
  destruct (Render_HTML_response 1 demoRender 200 "content" (DString "jeremy") [] _ _ H)
    as (r2 & E & _ & Hb & _).
  exists r2. split; [exact E | exact Hb].
Defined.



Lemma compileFile_function_table_witness :
  eligible helperOptions indexHtml = true /\
  exists t', compileFile helperOptions indexHtml demoTemplate = Some t' /\
             tmplFuncs t' !! "yield"
             = Some (FuncConst (TString "") (Some "yield called with no layout defined")) /\
             tmplFuncs t' !! "myCustomFunc"
             = Some (FuncConst (TString "My custom function") None).
Proof.
  split; [reflexivity|].
  destruct (compileFile helperOptions indexHtml demoTemplate) as [t'|] eqn:E;
    [|vm_compute in E; discriminate E].
  exists t'. split; [reflexivity|].
  destruct (compileFile_function_table helperOptions indexHtml demoTemplate t' eq_refl E)
    as (Hy & _ & Hlast & _).
  split; [exact Hy|].
  eapply (Hlast "myCustomFunc" []); [discriminate | discriminate | reflexivity | reflexivity].
Defined.

Lemma compileFile_dotted_directory_witness :
  Contains "v1.0" "." = true /\
  compileFile (prepareRenderOptions []) (mkFile "v1.0/index.html" (Some "<h1>v1</h1>"))
              demoTemplate
  = Some demoTemplate.
Proof.
  split; [reflexivity|].
  refine (proj2 (compileFile_dotted_directory (prepareRenderOptions []) "v1.0" "index.html"
                   (Some "<h1>v1</h1>") demoTemplate eq_refl _)).
  intros e He. apply list_elem_of_singleton in He. subst e. reflexivity.
Defined.


Lemma Render_JSON_through_gzip_witness :
  (exists a b, Header_Get (reqHeader gzipRequest) HeaderAcceptEncoding = a +:+ "gzip" +:+ b) /\
  json_Marshal (DString "hello") = Ok (bytes (quote +:+ "hello" +:+ quote)) /\
  rwHeader (resp (fst (fst (serveGzip emptyWorld gzipRequest
                              (mkContext DirectWriter
                                 (Some (Render_JSON_calls demoRender 200 (DString "hello"))))))))
    !! "Content-Type" = Some ["application/json; charset=UTF-8"].
Proof.
  split; [exact gzipRequest_accepts|]. split; [reflexivity|].
  exact (proj1 (Render_JSON_through_gzip emptyWorld gzipRequest DirectWriter demoRender 200
                  (DString "hello") _ gzipRequest_accepts eq_refl)).
Defined.

(** What the further properties say on runs of the package's kind. *)
Example Test_Render_XML_prefix :
  let xmlOptions : @RenderOptions demo :=
    mkRenderOptions "" "" [] [] (mkDelims "" "") "" false false [] (bytes ")]}',") "" in
  let r := mkRender emptyResponse demoTemplate xmlOptions (prepareCharset "") in
  let w := Render_w (Render_XML demoMarshal (fun v _ _ => demoMarshal v) r 300 (DString "x")) in
  rwStatus w = Some 300 /\
  Header_Get (rwHeader w) ContentType = "text/xml; charset=UTF-8" /\
  rwBody w = bytes (")]}'," +:+ quote +:+ "x" +:+ quote).
Proof. vm_compute. repeat split. Qed.

Example yield_renders_earlier_content :
  let '(r1, _) := Render_renderBytes 2 layoutRender "content" (DString "first") [] in
  snd (Render_HTMLString 2 r1 "layout" (DString "second") [mkHTMLRenderOptions ""])
  = Some (Ok ("head" +:+ newline +:+ "<h1>first</h1>" +:+ newline +:+ newline
              +:+ "foot" +:+ newline)).
Proof. vm_compute. reflexivity. Qed.
